(** * socksies: SSH SOCKS proxy manager

    A shallow embedding of [socksies.py].  The program reads a YAML mapping
    of proxy names to [host] / [port] / [identity_file], and shells out to
    [ssh], [pgrep] and [pkill].  Everything the script does to the outside
    world is either a line on stdout or a child process; both are recorded
    in an event log, and the operating system is an explicit state that
    every child process may change. *)

From Stdlib Require Import String Ascii List ZArith Lia Bool DecimalString.
Import ListNotations.
Open Scope string_scope.

(** ** Python values that occur in a proxy record *)

(** [port] comes out of YAML as an integer ([port: 9051]) or as a string
    (the default ["--"], or a quoted scalar); [host] and [identity_file]
    are strings. *)
Inductive port_value :=
  | PInt (n : Z)
  | PStr (s : string).

(** [str(v)] and the f-string conversion [{v}], which agree on both types. *)
Definition py_str (v : port_value) : string :=
  match v with
  | PInt n => NilZero.string_of_int (Z.to_int n)
  | PStr s => s
  end.

(** Truth value of a string: only the empty string is false. *)
Definition str_truthy (s : string) : bool :=
  match s with
  | EmptyString => false
  | String _ _ => true
  end.

(** Truth value of a port: [0] and the empty string are false. *)
Definition port_truthy (v : port_value) : bool :=
  match v with
  | PInt n => negb (n =? 0)%Z
  | PStr s => str_truthy s
  end.

(** [sep.join(parts)] *)
Definition join (sep : string) (parts : list string) : string :=
  String.concat sep parts.

(** [t] occurs in [s] as a contiguous run of characters. *)
Definition substring_of (t s : string) : Prop :=
  exists pre suf, s = pre ++ t ++ suf.

(** ** Data model *)

(** The dictionary built by [parse_proxy_config] for one proxy. *)
Record proxy := mk_proxy {
  name : string;
  host : string;
  port : port_value;
  identity_file : string
}.

(** The sub-mapping under one top-level key: each of the three keys is
    optional. *)
Record proxy_data := mk_data {
  data_host : option string;
  data_port : option port_value;
  data_identity_file : option string
}.

(** [d.get(key, default)] *)
Definition get {A : Type} (field : option A) (default : A) : A :=
  match field with
  | Some v => v
  | None => default
  end.

(** What sits under a top-level key: a mapping, or something without
    [.get] (a scalar, a list, null). *)
Inductive yaml_node :=
  | YMapping (d : proxy_data)
  | YOther.

(** What [open(CONFIG_FILE)] followed by [yaml.safe_load] gives. *)
Inductive config_source :=
  | NoSuchFile
  | InvalidYaml
  | NotAMapping
  | Mapping (items : list (string * yaml_node)).

(** ** Exceptions, events and the machine *)

Inductive exn :=
  | FileNotFoundError          (* open() on a missing file *)
  | YAMLError                  (* yaml.safe_load on malformed text *)
  | AttributeError             (* .items() / .get() on a non-mapping *)
  | TypeError                  (* subscripting a str with a str *)
  | SpawnError                 (* OSError from Popen: program not runnable *)
  | CalledProcessError (returncode : Z).

Inductive outcome (A : Type) :=
  | Returned (a : A)
  | Raised (e : exn).
Arguments Returned {A} a.
Arguments Raised {A} e.

(** Observable actions, in program order. *)
Inductive event :=
  | Print (line : string)
  | Exec (argv : list string)
  | PrintHelp.

(** How a child process ended: it ran and exited, or it could not be
    started at all. *)
Inductive completed :=
  | Exited (returncode : Z)
  | NotStarted.

(** The environment of one invocation. *)
Record machine (OS : Type) := mk_machine {
  CONFIG_FILE : string;
  config : config_source;
  expanduser : string -> string;
  spawn : list string -> OS -> completed * OS
}.
Arguments CONFIG_FILE {OS} m.
Arguments config {OS} m.
Arguments expanduser {OS} m s.
Arguments spawn {OS} m argv os.

(** ** Command pattern builder (pure part of status / connect / disconnect) *)

Section Patterns.
Variable expand : string -> string.

(** [proxy_status], lines 107-113 *)
Definition status_pattern (p : proxy) : string :=
  let proxy_host := host p in
  let proxy_port := port p in
  let proxy_id := expand (identity_file p) in
  "ssh -D " ++ py_str proxy_port ++ " -i " ++ proxy_id
    ++ " -q -C -f -N " ++ proxy_host.

(** [_disconnect_single_proxy], lines 239-244 *)
Definition ssh_cmd_pattern (p : proxy) : string :=
  let proxy_host := host p in
  let proxy_port := port p in
  let proxy_id := expand (identity_file p) in
  "ssh -D " ++ py_str proxy_port ++ " -N " ++ proxy_host
    ++ " -q -C -f -i " ++ proxy_id.

(** [proxy_connect], lines 170-182 *)
Definition connect_cmd (p : proxy) : list string :=
  let proxy_host := host p in
  let proxy_port := port p in
  let proxy_id := expand (identity_file p) in
  [ "ssh"; "-D"; py_str proxy_port; "-i"; proxy_id;
    "-q"; "-C"; "-f"; "-N"; proxy_host ].
End Patterns.

(** The validation of [proxy_connect], line 165:
    [not proxy_host or not proxy_port or not proxy_id]. *)
Definition incomplete (proxy_host : string) (proxy_port : port_value)
                      (proxy_id : string) : bool :=
  negb (str_truthy proxy_host) || negb (port_truthy proxy_port)
  || negb (str_truthy proxy_id).

(** ** Config loader *)

(** The loop of [parse_proxy_config], lines 46-62: [proxies] is the list
    appended to so far. *)
Fixpoint build_proxies (items : list (string * yaml_node))
                       (proxies : list proxy) : outcome (list proxy) :=
  match items with
  | [] => Returned proxies
  | (proxy_name, YOther) :: _ => Raised AttributeError
  | (proxy_name, YMapping proxy_data) :: rest =>
      let host := get (data_host proxy_data) "--" in
      let port := get (data_port proxy_data) (PStr "--") in
      let identity_file := get (data_identity_file proxy_data) "" in
      build_proxies rest
        (proxies ++ [ {| name := proxy_name; host := host;
                         port := port; identity_file := identity_file |} ])
  end.

(** [parse_proxy_config], as a function of what the file holds. *)
Definition load (src : config_source) : outcome (list proxy) :=
  match src with
  | NoSuchFile => Raised FileNotFoundError
  | InvalidYaml => Raised YAMLError
  | NotAMapping => Raised AttributeError
  | Mapping items => build_proxies items []
  end.

(** The scan of [_proxy_search], lines 32-35. *)
Fixpoint search (proxies : list proxy) (proxy_name : string) : option proxy :=
  match proxies with
  | [] => None
  | proxy :: rest =>
      if (name proxy =? proxy_name)%string then Some proxy
      else search rest proxy_name
  end.

(** ** The effect monad: event log, operating-system state, exceptions *)

Section Program.
Context {OS : Type} (m : machine OS).

Definition M (A : Type) : Type := OS -> list event * OS * outcome A.

Definition ret {A} (a : A) : M A := fun os => ([], os, Returned a).

Definition raise {A} (e : exn) : M A := fun os => ([], os, Raised e).

Definition bind {A B} (c : M A) (k : A -> M B) : M B :=
  fun os =>
    match c os with
    | (l1, os1, Returned a) =>
        let '(l2, os2, r) := k a os1 in ((l1 ++ l2)%list, os2, r)
    | (l1, os1, Raised e) => (l1, os1, Raised e)
    end.

Definition lift {A} (o : outcome A) : M A := fun os => ([], os, o).

(** [try: body  except <those e with handler e = Some h>: h] *)
Definition try_except {A} (body : M A) (handler : exn -> option (M A)) : M A :=
  fun os =>
    match body os with
    | (l1, os1, Raised e) =>
        match handler e with
        | Some h => let '(l2, os2, r) := h os1 in ((l1 ++ l2)%list, os2, r)
        | None => (l1, os1, Raised e)
        end
    | done => done
    end.

Definition print (line : string) : M unit :=
  fun os => ([Print line], os, Returned tt).

(** [subprocess.run(argv, check=check)]: the call is logged; a program
    that cannot be started raises from inside [Popen]; with [check=True]
    a non-zero exit status raises [CalledProcessError]. *)
Definition subprocess_run (argv : list string) (check : bool) : M Z :=
  fun os =>
    match spawn m argv os with
    | (NotStarted, os') => ([Exec argv], os', Raised SpawnError)
    | (Exited rc, os') =>
        ([Exec argv], os',
         if check && negb (rc =? 0)%Z
         then Raised (CalledProcessError rc) else Returned rc)
    end.

(** [subprocess.run(cmd, shell=True, check=False)] *)
Definition subprocess_run_shell (cmd : string) : M Z :=
  subprocess_run ["/bin/sh"; "-c"; cmd] false.

(** [s[key]] for a str [s] and a str [key]: always a [TypeError]. *)
Definition str_subscript (s key : string) : M string := raise TypeError.

Notation "x <- c ;; k" := (bind c (fun x => k))
  (at level 61, c at next level, right associativity).
Notation "c ;;; k" := (bind c (fun _ => k))
  (at level 61, right associativity).

Fixpoint for_each {A} (xs : list A) (body : A -> M unit) : M unit :=
  match xs with
  | [] => ret tt
  | x :: rest => body x ;;; for_each rest body
  end.

(** ** The script's functions *)

Definition parse_proxy_config : M (list proxy) := lift (load (config m)).

Definition _proxy_search (proxy_name : string) : M (option proxy) :=
  proxies <- parse_proxy_config ;;
  ret (search proxies proxy_name).

Definition not_found_message (proxy_name : string) : string :=
  "Error: Proxy '" ++ proxy_name ++ "' not found in " ++ CONFIG_FILE m ++ ".".

Definition proxy_line (n h p : string) : string :=
  "- " ++ n ++ " (" ++ h ++ ":" ++ p ++ ")".

Definition proxy_list : M unit :=
  print "Listing configured Proxies:" ;;;
  proxies <- parse_proxy_config ;;
  for_each proxies (fun proxy =>
    print (proxy_line (name proxy) (host proxy) (py_str (port proxy)))).

Definition proxy_info (proxy_name : string) : M unit :=
  found_proxy <- _proxy_search proxy_name ;;
  match found_proxy with
  | None => print (not_found_message proxy_name)
  | Some found_proxy =>
      print ("Proxy: " ++ name found_proxy) ;;;
      print ("  Host: " ++ host found_proxy) ;;;
      print ("  Port: " ++ py_str (port found_proxy)) ;;;
      print ("  Identity File: " ++ identity_file found_proxy)
  end.

(** The body of the loop of [proxy_status], lines 107-120: one [pgrep]
    for the proxy's status pattern, and the test of its return code. *)
Definition search_cmd (proxy : proxy) : list string :=
  let pattern := status_pattern (expanduser m) proxy in
  ["pgrep"; "-af"; pattern].

Definition is_running (proxy : proxy) : M bool :=
  returncode <- subprocess_run (search_cmd proxy) false ;;
  ret (returncode =? 0)%Z.

(** The loop of [proxy_status], lines 106-121: [connected] collects the
    NAMES of the proxies found running. *)
Fixpoint status_scan (proxies : list proxy) (connected : list string)
  : M (list string) :=
  match proxies with
  | [] => ret connected
  | proxy :: rest =>
      running <- is_running proxy ;;
      status_scan rest
        (if running then (connected ++ [name proxy])%list else connected)
  end.

Definition dquote : string := String (ascii_of_nat 34) EmptyString.

Definition verbose_cmd : string :=
  "ps aux | head -n 1 ; "
  ++ "ps aux | grep -P " ++ dquote ++ "ssh.-D.\d.*" ++ dquote ++ " ; "
  ++ "echo " ++ dquote ++ "---" ++ dquote ++ " ; "
  ++ "ss -tlnp | head -n 1 ; "
  ++ "ss -tlnp | grep ssh".

Definition proxy_status (verbose : bool) : M unit :=
  proxies <- parse_proxy_config ;;
  connected <- status_scan proxies [] ;;
  match connected with
  | _ :: _ =>
      if verbose then
        print "Running verbose status command:" ;;;
        subprocess_run_shell verbose_cmd ;;;
        ret tt
      else
        print "Currently connected proxies:" ;;;
        for_each connected (fun proxy =>
          n <- str_subscript proxy "name" ;;
          h <- str_subscript proxy "host" ;;
          p <- str_subscript proxy "port" ;;
          print (proxy_line n h p))
  | [] => print "No proxies appear to be connected."
  end.

Definition newline : string := String (ascii_of_nat 10) EmptyString.

(** [str(e)] for the [CalledProcessError] of [argv], for a positive exit
    status and arguments free of quotes, backslashes and control
    characters (where [repr] puts each between single quotes).  For a
    negative return code Python names the signal instead, and [repr]
    quotes other arguments differently; no statement below depends on
    this text. *)
Definition called_process_error_str (argv : list string) (rc : Z) : string :=
  "Command '[" ++ join ", " (map (fun a => "'" ++ a ++ "'") argv)
    ++ "]' returned non-zero exit status " ++ py_str (PInt rc) ++ ".".

Definition incomplete_message (proxy_name : string) : string :=
  "Error: Incomplete config for '" ++ proxy_name
    ++ "'. Check host, port, and identity_file.".

Definition proxy_connect (proxy_name : string) : M unit :=
  found_proxy <- _proxy_search proxy_name ;;
  match found_proxy with
  | None => print (not_found_message proxy_name)
  | Some found_proxy =>
      let proxy_host := host found_proxy in
      let proxy_port := port found_proxy in
      let proxy_id := identity_file found_proxy in
      if incomplete proxy_host proxy_port proxy_id
      then print (incomplete_message proxy_name)
      else
        let connect_cmd := connect_cmd (expanduser m) found_proxy in
        print ("Establishing SOCKS proxy with: " ++ proxy_name ++ " ("
               ++ proxy_host ++ ":" ++ py_str proxy_port ++ ")") ;;;
        print ("SSH command: " ++ join " " connect_cmd) ;;;
        try_except
          (subprocess_run connect_cmd true ;;;
           print ("Connection established to " ++ proxy_host
                  ++ " on SOCKS port " ++ py_str proxy_port ++ "."))
          (fun e =>
             match e with
             | CalledProcessError rc =>
                 Some (print ("Error: Failed to connect to '" ++ proxy_name
                              ++ "' (" ++ proxy_host ++ ":"
                              ++ py_str proxy_port ++ ")." ++ newline
                              ++ called_process_error_str connect_cmd rc))
             | _ => None
             end)
  end.

Definition pkill_cmd (proxy_dict : proxy) : list string :=
  let ssh_cmd_pattern := ssh_cmd_pattern (expanduser m) proxy_dict in
  ["pkill"; "-f"; ssh_cmd_pattern].

Definition disconnected_message (proxy_dict : proxy) : string :=
  "Disconnected proxy: " ++ name proxy_dict ++ " (" ++ host proxy_dict
    ++ ":" ++ py_str (port proxy_dict) ++ ")".

Definition _disconnect_single_proxy (proxy_dict : proxy) : M bool :=
  try_except
    (subprocess_run (pkill_cmd proxy_dict) true ;;;
     print (disconnected_message proxy_dict) ;;;
     ret true)
    (fun e =>
       match e with
       | CalledProcessError _ => Some (ret false)
       | _ => None
       end).

(** The loop of [proxy_disconnect], lines 213-215. *)
Fixpoint disconnect_each (proxies : list proxy) (any_disconnected : bool)
  : M bool :=
  match proxies with
  | [] => ret any_disconnected
  | proxy :: rest =>
      killed <- _disconnect_single_proxy proxy ;;
      disconnect_each rest (if killed then true else any_disconnected)
  end.

Definition no_active_message : string :=
  "No active proxies were found to disconnect.".

Definition proxy_disconnect (proxy_name : string) : M unit :=
  if (proxy_name =? "all")%string then
    proxies <- parse_proxy_config ;;
    print "Disconnecting from all configured proxies." ;;;
    any_disconnected <- disconnect_each proxies false ;;
    if negb any_disconnected
    then print no_active_message
    else ret tt
  else
    found_proxy <- _proxy_search proxy_name ;;
    match found_proxy with
    | None => print (not_found_message proxy_name)
    | Some found_proxy =>
        _disconnect_single_proxy found_proxy ;;; ret tt
    end.

(** The namespace that [parser.parse_args()] returns. *)
Inductive args :=
  | Status (verbose : bool)
  | List
  | Info (proxy_name : string)
  | Connect (proxy_name : string)
  | Disconnect (proxy_name : string)
  | NoCommand.

Definition main (a : args) : M unit :=
  match a with
  | Status verbose => proxy_status verbose
  | List => proxy_list
  | Info proxy_name => proxy_info proxy_name
  | Connect proxy_name => proxy_connect proxy_name
  | Disconnect proxy_name => proxy_disconnect proxy_name
  | NoCommand => fun os => ([PrintHelp], os, Returned tt)
  end.
End Program.

(** Projections of one run. *)
Definition log_of {OS A} (r : list event * OS * outcome A) : list event :=
  fst (fst r).
Definition os_of {OS A} (r : list event * OS * outcome A) : OS :=
  snd (fst r).
Definition result_of {OS A} (r : list event * OS * outcome A) : outcome A :=
  snd r.

(** The child processes started during a run, in order. *)
Fixpoint execs (l : list event) : list (list string) :=
  match l with
  | [] => []
  | Exec argv :: rest => argv :: execs rest
  | _ :: rest => execs rest
  end.

(** The lines written by the script itself, in order. *)
Fixpoint prints (l : list event) : list string :=
  match l with
  | [] => []
  | Print line :: rest => line :: prints rest
  | _ :: rest => prints rest
  end.

(** ** A reference machine

    A small operating system to run the script on: a table of command
    lines of live processes, and the set of programs that can be started.
    [pgrep -af] and [pkill -f] match a pattern when it occurs literally in
    a command line; [ssh] leaves a process behind whose command line is its
    argument vector joined by spaces. *)
Module Host.
Record os := mk_os {
  procs : list string;
  installed : list string
}.

Fixpoint contains (pat s : string) : bool :=
  String.prefix pat s
  || match s with
     | EmptyString => false
     | String _ rest => contains pat rest
     end.

Definition runnable (prog : string) (o : os) : bool :=
  existsb (String.eqb prog) (installed o).

Definition run_child (argv : list string) (o : os) : completed * os :=
  match argv with
  | [] => (NotStarted, o)
  | prog :: rest =>
      if negb (runnable prog o) then (NotStarted, o)
      else
        match argv with
        | ["pgrep"; "-af"; pat] =>
            (Exited (if existsb (contains pat) (procs o) then 0 else 1), o)
        | ["pkill"; "-f"; pat] =>
            if existsb (contains pat) (procs o)
            then (Exited 0,
                  {| procs := filter (fun c => negb (contains pat c)) (procs o);
                     installed := installed o |})
            else (Exited 1, o)
        | "ssh" :: _ =>
            (Exited 0,
             {| procs := (procs o ++ [join " " argv])%list;
                installed := installed o |})
        | _ => (Exited 0, o)
        end
  end.

(** [~] and [~/...] are replaced by the home directory; every other path
    is left as it is. *)
Definition expand_home (home path : string) : string :=
  match path with
  | String "~" EmptyString => home
  | String "~" (String "/" rest) => home ++ "/" ++ rest
  | _ => path
  end.

Definition machine_of (src : config_source) : machine os :=
  {| CONFIG_FILE := "/opt/socksies/proxy-config.yml";
     config := src;
     expanduser := expand_home "/home/op";
     spawn := run_child |}.

Definition all_tools : list string := ["ssh"; "pgrep"; "pkill"; "/bin/sh"].

(** The sample configuration of the test suite: [proxy2] has no
    [identity_file]. *)
Definition sample : config_source :=
  Mapping
    [ ("proxy1", YMapping {| data_host := Some "172.31.0.51";
                             data_port := Some (PInt 9051);
                             data_identity_file := Some "~/.ssh/private_key" |});
      ("proxy2", YMapping {| data_host := Some "172.31.0.52";
                             data_port := Some (PInt 9052);
                             data_identity_file := None |}) ].

Definition idle : os := {| procs := []; installed := all_tools |}.
End Host.

(** Two more states of the reference machine: the tunnel of [proxy1] is
    up; and a host on which [pgrep] is not installed. *)
Definition tunnel_up : Host.os :=
  {| Host.procs :=
       ["ssh -D 9051 -i /home/op/.ssh/private_key -q -C -f -N 172.31.0.51"];
     Host.installed := Host.all_tools |}.

Definition without_pgrep : Host.os :=
  {| Host.procs := []; Host.installed := ["ssh"; "pkill"; "/bin/sh"] |}.

Definition proxy1 : proxy :=
  {| name := "proxy1"; host := "172.31.0.51"; port := PInt 9051;
     identity_file := "~/.ssh/private_key" |}.

(** A file whose only entry gives an identity file and neither host nor
    port: both load as the sentinel ["--"]. *)
Definition sentinel_only : config_source :=
  Mapping [ ("jump", YMapping {| data_host := None; data_port := None;
                                 data_identity_file := Some "key" |}) ].

(** A host on which [pkill] is not installed. *)
Definition without_pkill : Host.os :=
  {| Host.procs := []; Host.installed := ["ssh"; "pgrep"; "/bin/sh"] |}.

(** The reference machine behind a dead network: [ssh] runs and exits with
    status 255, leaving no process behind. *)
Definition unreachable (src : config_source) : machine Host.os :=
  {| CONFIG_FILE := "/opt/socksies/proxy-config.yml";
     config := src;
     expanduser := Host.expand_home "/home/op";
     spawn := fun argv o =>
                match argv with
                | "ssh" :: _ => (Exited 255, o)
                | _ => Host.run_child argv o
                end |}.

(** The sample file with a third key that holds no mapping ([proxy3:]
    followed by nothing). *)
Definition sample_with_null : config_source :=
  Mapping
    [ ("proxy1", YMapping {| data_host := Some "172.31.0.51";
                             data_port := Some (PInt 9051);
                             data_identity_file := Some "~/.ssh/private_key" |});
      ("proxy3", YOther) ].

(** The first word of an argument vector: the program that is started. *)
Definition program (argv : list string) : string := hd "" argv.

(** ** Sequences of child processes *)

(** A child that ran and exited with status zero. *)
Definition succeeded (c : completed) : bool :=
  match c with
  | Exited rc => (rc =? 0)%Z
  | NotStarted => false
  end.

Definition started (c : completed) : bool :=
  match c with
  | Exited _ => true
  | NotStarted => false
  end.

(** The argument vector of [subprocess.run(verbose_cmd, shell=True)]. *)
Definition shell_argv : list string := ["/bin/sh"; "-c"; verbose_cmd].

Section Replay.
Context {OS : Type} (m : machine OS).

(** What the machine answers when the commands are started one after the
    other, each on the state the previous one left. *)
Fixpoint replay (cmds : list (list string)) (os : OS)
  : list completed * OS :=
  match cmds with
  | [] => ([], os)
  | argv :: rest =>
      let '(c, os1) := spawn m argv os in
      let '(cs, os2) := replay rest os1 in
      (c :: cs, os2)
  end.

(** The events of the loop of [proxy_disconnect] for given answers. *)
Fixpoint kill_log (proxies : list proxy) (cs : list completed) : list event :=
  match proxies, cs with
  | p :: ps, c :: cs' =>
      (Exec (pkill_cmd m p)
       :: (if succeeded c then [Print (disconnected_message p)] else []))
      ++ kill_log ps cs'
  | _, _ => []
  end.

(** The names collected by the loop of [proxy_status] for given answers
    of [pgrep]. *)
Fixpoint found_names (proxies : list proxy) (cs : list completed)
  : list string :=
  match proxies, cs with
  | p :: ps, c :: cs' =>
      (if succeeded c then [name p] else []) ++ found_names ps cs'
  | _, _ => []
  end.
End Replay.

(** ** Well-formed configuration files *)

(** A well-formed file: every top-level key holds a mapping. *)
Definition mapping_of (entries : list (string * proxy_data)) : config_source :=
  Mapping (map (fun e => (fst e, YMapping (snd e))) entries).

Definition record_of (e : string * proxy_data) : proxy :=
  {| name := fst e;
     host := get (data_host (snd e)) "--";
     port := get (data_port (snd e)) (PStr "--");
     identity_file := get (data_identity_file (snd e)) "" |}.

(** ** Strings *)

Lemma append_nil_r (s : string) : s ++ "" = s.
Proof. induction s as [|c s IH]; simpl; [reflexivity | now rewrite IH]. Qed.

Lemma length_append (s t : string) :
  String.length (s ++ t) = String.length s + String.length t.
Proof. induction s as [|c s IH]; simpl; [reflexivity | now rewrite IH]. Qed.

Lemma append_cancel_l (s a b : string) : s ++ a = s ++ b -> a = b.
Proof.
  induction s as [|c s IH]; simpl; intros H; [exact H|].
  injection H as H. auto.
Qed.

Lemma length_zero (s : string) : String.length s = 0 -> s = "".
Proof. destruct s; simpl; [reflexivity | discriminate]. Qed.

Lemma substring_of_refl (s : string) : substring_of s s.
Proof. exists "", "". simpl. now rewrite append_nil_r. Qed.

(** A substring as long as the whole string is the whole string. *)
Lemma substring_same_length (t s : string) :
  substring_of t s -> String.length t = String.length s -> t = s.
Proof.
  intros (pre & suf & ->) Hlen.
  rewrite !length_append in Hlen.
  assert (Hpre : pre = "") by (apply length_zero; lia).
  assert (Hsuf : suf = "") by (apply length_zero; lia).
  subst. simpl. now rewrite append_nil_r.
Qed.

(** ** The three command lines *)

Section PatternFacts.
Variable expand : string -> string.

Lemma join_connect_cmd (p : proxy) :
  join " " (connect_cmd expand p) = status_pattern expand p.
Proof. reflexivity. Qed.

Lemma patterns_same_length (p : proxy) :
  String.length (ssh_cmd_pattern expand p)
  = String.length (status_pattern expand p).
Proof.
  unfold ssh_cmd_pattern, status_pattern.
  repeat (rewrite length_append; simpl). lia.
Qed.

Lemma patterns_distinct (p : proxy) :
  status_pattern expand p <> ssh_cmd_pattern expand p.
Proof.
  unfold status_pattern, ssh_cmd_pattern. intros H.
  apply (append_cancel_l "ssh -D ") in H.
  apply append_cancel_l in H.
  simpl in H. discriminate H.
Qed.
End PatternFacts.

(** ** Running the script's functions *)

Ltac unfold_monad :=
  unfold bind, ret, raise, lift, print, try_except, subprocess_run_shell,
    subprocess_run, log_of, os_of, result_of in *.

Section Runs.
Context {OS : Type} (m : machine OS).

Lemma parse_proxy_config_run (os : OS) :
  parse_proxy_config m os = ([], os, load (config m)).
Proof. reflexivity. Qed.

Lemma proxy_search_run (n : string) (os : OS) :
  _proxy_search m n os
  = ([], os, match load (config m) with
             | Returned proxies => Returned (search proxies n)
             | Raised e => Raised e
             end).
Proof.
  unfold _proxy_search, parse_proxy_config. unfold_monad.
  destruct (load (config m)); reflexivity.
Qed.

Lemma proxy_search_found (n : string) (os : OS) (p : proxy) :
  result_of (_proxy_search m n os) = Returned (Some p) ->
  exists proxies,
    load (config m) = Returned proxies /\ search proxies n = Some p.
Proof.
  rewrite proxy_search_run. unfold result_of. simpl.
  destruct (load (config m)) as [proxies|e]; [|discriminate].
  intros H. injection H as H. now exists proxies.
Qed.

(** What [proxy_connect] does once the lookup has found [p]. *)
Lemma proxy_connect_found (n : string) (os : OS) (p : proxy) :
  result_of (_proxy_search m n os) = Returned (Some p) ->
  proxy_connect m n os
  = if incomplete (host p) (port p) (identity_file p)
    then ([Print (incomplete_message n)], os, Returned tt)
    else
      let argv := connect_cmd (expanduser m) p in
      let intro :=
        [ Print ("Establishing SOCKS proxy with: " ++ n ++ " ("
                 ++ host p ++ ":" ++ py_str (port p) ++ ")");
          Print ("SSH command: " ++ join " " argv); Exec argv ] in
      match spawn m argv os with
      | (NotStarted, os') => (intro, os', Raised SpawnError)
      | (Exited rc, os') =>
          if (rc =? 0)%Z
          then ((intro ++ [Print ("Connection established to " ++ host p
                                 ++ " on SOCKS port " ++ py_str (port p)
                                 ++ ".")])%list,
                os', Returned tt)
          else ((intro ++ [Print ("Error: Failed to connect to '" ++ n
                                 ++ "' (" ++ host p ++ ":"
                                 ++ py_str (port p) ++ ")." ++ newline
                                 ++ called_process_error_str argv rc)])%list,
                os', Returned tt)
      end.
Proof.
  intros H. apply proxy_search_found in H as (proxies & Hload & Hfind).
  unfold proxy_connect. unfold bind at 1. rewrite proxy_search_run, Hload, Hfind.
  destruct (incomplete _ _ _); [reflexivity|].
  unfold_monad. cbv zeta.
  destruct (spawn m (connect_cmd (expanduser m) p) os) as [[rc|] os'];
    [|reflexivity].
  destruct (rc =? 0)%Z; reflexivity.
Qed.

Lemma proxy_connect_execs (n : string) (os : OS) (p : proxy) :
  result_of (_proxy_search m n os) = Returned (Some p) ->
  execs (log_of (proxy_connect m n os))
  = if incomplete (host p) (port p) (identity_file p)
    then [] else [connect_cmd (expanduser m) p].
Proof.
  intros H. rewrite (proxy_connect_found n os p H).
  destruct (incomplete _ _ _); [reflexivity|].
  cbv zeta.
  destruct (spawn m (connect_cmd (expanduser m) p) os) as [[rc|] os'];
    [|reflexivity].
  destruct (rc =? 0)%Z; reflexivity.
Qed.
End Runs.

(** C1.  The status pattern is the string
    [ssh -D {port} -i {identity} -q -C -f -N {host}] and the kill pattern
    is the differently ordered [ssh -D {port} -N {host} -q -C -f -i
    {identity}], both with the expanded identity path.  For every proxy
    (so for every one with a non-empty identity file) the two strings
    differ; the status pattern occurs in the space-joined argument vector
    of [proxy_connect] (it is that very string) and the kill pattern does
    not; and whenever [proxy_connect] finds the proxy, the only child it
    can start is that argument vector. *)
Theorem status_and_kill_patterns :
  forall (OS : Type) (m : machine OS) (p : proxy),
    let id := expanduser m (identity_file p) in
    let cmdline := join " " (connect_cmd (expanduser m) p) in
    status_pattern (expanduser m) p
      = "ssh -D " ++ py_str (port p) ++ " -i " ++ id ++ " -q -C -f -N " ++ host p
    /\ ssh_cmd_pattern (expanduser m) p
      = "ssh -D " ++ py_str (port p) ++ " -N " ++ host p ++ " -q -C -f -i " ++ id
    /\ status_pattern (expanduser m) p <> ssh_cmd_pattern (expanduser m) p
    /\ substring_of (status_pattern (expanduser m) p) cmdline
    /\ ~ substring_of (ssh_cmd_pattern (expanduser m) p) cmdline
    /\ (forall (n : string) (os : OS),
          result_of (_proxy_search m n os) = Returned (Some p) ->
          execs (log_of (proxy_connect m n os))
          = if incomplete (host p) (port p) (identity_file p)
            then [] else [connect_cmd (expanduser m) p]).
Proof.
  intros OS m p id cmdline. subst id cmdline.
  rewrite join_connect_cmd.
  repeat split.
  - apply patterns_distinct.
  - apply substring_of_refl.
  - intros Hsub.
    apply substring_same_length in Hsub; [|apply patterns_same_length].
    now apply (patterns_distinct (expanduser m) p).
  - intros n os. apply proxy_connect_execs.
Qed.

(** On the reference machine [connect proxy1] starts exactly the vector
    whose joined form the status pattern matches. *)
Lemma status_and_kill_patterns_witness :
  let m := Host.machine_of Host.sample in
  let p := {| name := "proxy1"; host := "172.31.0.51"; port := PInt 9051;
              identity_file := "~/.ssh/private_key" |} in
  result_of (_proxy_search m "proxy1" Host.idle) = Returned (Some p)
  /\ execs (log_of (proxy_connect m "proxy1" Host.idle))
     = [ ["ssh"; "-D"; "9051"; "-i"; "/home/op/.ssh/private_key";
          "-q"; "-C"; "-f"; "-N"; "172.31.0.51"] ].
Proof.
  intros m p. split; [reflexivity|].
  destruct (status_and_kill_patterns Host.os m p)
    as (_ & _ & _ & _ & _ & Hrun).
  rewrite (Hrun "proxy1" Host.idle); reflexivity.
Defined.

(** ** Config loader and lookup *)

Lemma build_proxies_mappings (entries : list (string * proxy_data)) :
  forall acc,
    build_proxies (map (fun e => (fst e, YMapping (snd e))) entries) acc
    = Returned (acc ++ map record_of entries)%list.
Proof.
  induction entries as [|[k d] rest IH]; intros acc; simpl.
  - now rewrite app_nil_r.
  - rewrite IH, <- app_assoc. reflexivity.
Qed.

Lemma load_mapping_of (entries : list (string * proxy_data)) :
  load (mapping_of entries) = Returned (map record_of entries).
Proof. unfold mapping_of, load. now rewrite build_proxies_mappings. Qed.

Lemma search_some (proxies : list proxy) (n : string) (p : proxy) :
  search proxies n = Some p -> In p proxies /\ name p = n.
Proof.
  induction proxies as [|q rest IH]; simpl; [discriminate|].
  destruct (String.eqb_spec (name q) n) as [Heq|Hne].
  - intros H. injection H as <-. auto.
  - intros H. destruct (IH H). auto.
Qed.

Lemma search_none (proxies : list proxy) (n : string) :
  search proxies n = None -> forall q, In q proxies -> name q <> n.
Proof.
  induction proxies as [|q rest IH]; simpl; [tauto|].
  destruct (String.eqb_spec (name q) n) as [Heq|Hne]; [discriminate|].
  intros H q' [<-|Hin]; auto.
Qed.

Lemma search_in (proxies : list proxy) (n : string) (q : proxy) :
  In q proxies -> name q = n -> exists p, search proxies n = Some p.
Proof.
  intros Hin Hn. destruct (search proxies n) as [p|] eqn:E; [eauto|].
  exfalso. exact (search_none _ _ E q Hin Hn).
Qed.

Lemma nodup_names_unique (proxies : list proxy) :
  NoDup (map name proxies) ->
  forall p q, In p proxies -> In q proxies -> name p = name q -> p = q.
Proof.
  induction proxies as [|r rest IH]; simpl; [tauto|].
  intros Hnd p q Hp Hq Hname.
  inversion Hnd as [|? ? Hnotin Hnd']; subst.
  destruct Hp as [<-|Hp], Hq as [<-|Hq]; auto.
  - exfalso. apply Hnotin. rewrite Hname. now apply in_map.
  - exfalso. apply Hnotin. rewrite <- Hname. now apply in_map.
Qed.

Lemma map_name_record_of (entries : list (string * proxy_data)) :
  map name (map record_of entries) = map fst entries.
Proof. rewrite map_map. reflexivity. Qed.

(** C9.  A configuration whose N top-level keys are distinct and each hold
    a mapping loads as exactly N records, in key order, the i-th record
    named after the i-th key, [host] and [port] being the value given or
    ["--"] when the key is absent, [identity_file] the value given or the
    empty string; and the lookup by name over that list returns the one
    record of that name, or [None] when no key is equal to the name. *)
Theorem load_and_lookup :
  forall entries : list (string * proxy_data),
    NoDup (map fst entries) ->
    exists proxies,
      load (mapping_of entries) = Returned proxies
      /\ List.length proxies = List.length entries
      /\ map name proxies = map fst entries
      /\ (forall i key d,
            nth_error entries i = Some (key, d) ->
            exists p,
              nth_error proxies i = Some p
              /\ name p = key
              /\ (data_host d = None -> host p = "--")
              /\ (forall h, data_host d = Some h -> host p = h)
              /\ (data_port d = None -> port p = PStr "--")
              /\ (forall v, data_port d = Some v -> port p = v)
              /\ (data_identity_file d = None -> identity_file p = "")
              /\ (forall f, data_identity_file d = Some f ->
                            identity_file p = f))
      /\ (forall n,
            match search proxies n with
            | Some p =>
                In p proxies /\ name p = n
                /\ (forall q, In q proxies -> name q = n -> q = p)
            | None => ~ In n (map fst entries)
            end).
Proof.
  intros entries Hnd. exists (map record_of entries).
  split; [apply load_mapping_of|].
  split; [apply length_map|].
  split; [apply map_name_record_of|].
  split.
  - intros i key d Hi. exists (record_of (key, d)).
    split; [now apply map_nth_error|].
    unfold record_of; simpl.
    repeat split; intros; subst;
      match goal with H : _ = _ |- _ => rewrite H end; reflexivity.
  - intros n. destruct (search (map record_of entries) n) as [p|] eqn:E.
    + destruct (search_some _ _ _ E) as [Hin Hname].
      repeat split; auto.
      intros q Hq Hqn.
      apply (nodup_names_unique (map record_of entries)); auto.
      * now rewrite map_name_record_of.
      * congruence.
    + intros Hin. rewrite <- map_name_record_of in Hin.
      apply in_map_iff in Hin as (q & Hqn & Hq).
      exact (search_none _ _ E q Hq Hqn).
Qed.

(** The sample file of the test suite: two records, the second with the
    default identity file. *)
Lemma load_and_lookup_witness :
  exists proxies,
    load Host.sample = Returned proxies
    /\ List.length proxies = 2
    /\ map name proxies = ["proxy1"; "proxy2"].
Proof.
  destruct (load_and_lookup
              [ ("proxy1", {| data_host := Some "172.31.0.51";
                              data_port := Some (PInt 9051);
                              data_identity_file := Some "~/.ssh/private_key" |});
                ("proxy2", {| data_host := Some "172.31.0.52";
                              data_port := Some (PInt 9052);
                              data_identity_file := None |}) ])
    as (proxies & Hload & Hlen & Hnames & _).
  - repeat constructor; simpl; intuition discriminate.
  - exists proxies. repeat split; assumption.
Defined.

(** ** Connect: validation *)

(** C7.  When the record found for the name has an empty [identity_file],
    [proxy_connect] prints the incomplete-config error and nothing else,
    returns normally, starts no child process (so no [ssh]) and leaves the
    operating system as it was. *)
Theorem connect_empty_identity :
  forall (OS : Type) (m : machine OS) (os : OS) (n : string) (p : proxy),
    result_of (_proxy_search m n os) = Returned (Some p) ->
    identity_file p = "" ->
    proxy_connect m n os = ([Print (incomplete_message n)], os, Returned tt)
    /\ execs (log_of (proxy_connect m n os)) = [].
Proof.
  intros OS m os n p Hfound Hid.
  assert (Hinc : incomplete (host p) (port p) (identity_file p) = true).
  { rewrite Hid. unfold incomplete. simpl. now rewrite !orb_true_r. }
  split.
  - rewrite (proxy_connect_found m n os p Hfound), Hinc. reflexivity.
  - rewrite (proxy_connect_execs m n os p Hfound), Hinc. reflexivity.
Qed.

(** [proxy2] of the sample file has no identity file. *)
Lemma connect_empty_identity_witness :
  proxy_connect (Host.machine_of Host.sample) "proxy2" Host.idle
  = ([Print "Error: Incomplete config for 'proxy2'. Check host, port, and identity_file."],
     Host.idle, Returned tt)
  /\ execs (log_of (proxy_connect (Host.machine_of Host.sample) "proxy2"
                                   Host.idle)) = [].
Proof.
  apply (connect_empty_identity Host.os (Host.machine_of Host.sample)
           Host.idle "proxy2"
           {| name := "proxy2"; host := "172.31.0.52"; port := PInt 9052;
              identity_file := "" |});
    reflexivity.
Defined.

(** C3.  The validation of [proxy_connect] tests emptiness only: for the
    record loaded with ["--"] for host and port it prints no
    incomplete-config error and starts [ssh] with ["--"] as port and as
    host. *)
Theorem connect_sentinel_runs_ssh :
  load sentinel_only
    = Returned [ {| name := "jump"; host := "--"; port := PStr "--";
                    identity_file := "key" |} ]
  /\ incomplete "--" (PStr "--") "key" = false
  /\ proxy_connect (Host.machine_of sentinel_only) "jump" Host.idle
     = ([ Print "Establishing SOCKS proxy with: jump (--:--)";
          Print "SSH command: ssh -D -- -i key -q -C -f -N --";
          Exec ["ssh"; "-D"; "--"; "-i"; "key"; "-q"; "-C"; "-f"; "-N"; "--"];
          Print "Connection established to -- on SOCKS port --." ],
        {| Host.procs := ["ssh -D -- -i key -q -C -f -N --"];
           Host.installed := Host.all_tools |},
        Returned tt).
Proof. repeat split. Qed.

(** ** Disconnect *)

Section Disconnect.
Context {OS : Type} (m : machine OS).

Lemma disconnect_single_run (p : proxy) (os : OS) :
  _disconnect_single_proxy m p os
  = match spawn m (pkill_cmd m p) os with
    | (NotStarted, os') => ([Exec (pkill_cmd m p)], os', Raised SpawnError)
    | (Exited rc, os') =>
        if (rc =? 0)%Z
        then ([Exec (pkill_cmd m p); Print (disconnected_message p)],
              os', Returned true)
        else ([Exec (pkill_cmd m p)], os', Returned false)
    end.
Proof.
  unfold _disconnect_single_proxy. unfold_monad.
  destruct (spawn m (pkill_cmd m p) os) as [[rc|] os']; [|reflexivity].
  destruct (rc =? 0)%Z; reflexivity.
Qed.

(** C10.  Disconnecting one named proxy that is configured but whose
    kill pattern matches no process ([pkill] exits non-zero): the only
    event is the [pkill] call itself; no line is printed, the [False]
    of the helper is dropped and the command returns normally. *)
Theorem disconnect_single_silent :
  forall (os os' : OS) (n : string) (p : proxy) (rc : Z),
    n <> "all" ->
    result_of (_proxy_search m n os) = Returned (Some p) ->
    spawn m (pkill_cmd m p) os = (Exited rc, os') ->
    rc <> 0%Z ->
    result_of (_disconnect_single_proxy m p os) = Returned false
    /\ proxy_disconnect m n os = ([Exec (pkill_cmd m p)], os', Returned tt)
    /\ prints (log_of (proxy_disconnect m n os)) = [].
Proof.
  intros os os' n p rc Hn Hfound Hspawn Hrc.
  apply Z.eqb_neq in Hrc.
  assert (Hone : _disconnect_single_proxy m p os
                 = ([Exec (pkill_cmd m p)], os', Returned false)).
  { now rewrite disconnect_single_run, Hspawn, Hrc. }
  assert (Hrun : proxy_disconnect m n os
                 = ([Exec (pkill_cmd m p)], os', Returned tt)).
  { apply proxy_search_found in Hfound as (proxies & Hload & Hfind).
    unfold proxy_disconnect.
    apply String.eqb_neq in Hn. rewrite Hn.
    unfold bind at 1. rewrite proxy_search_run, Hload, Hfind.
    unfold bind. rewrite Hone. reflexivity. }
  rewrite Hone, Hrun. repeat split.
Qed.
End Disconnect.

(** [proxy1] is configured and the process table is empty. *)
Lemma disconnect_single_silent_witness :
  proxy_disconnect (Host.machine_of Host.sample) "proxy1" Host.idle
  = ([Exec ["pkill"; "-f";
            "ssh -D 9051 -N 172.31.0.51 -q -C -f -i /home/op/.ssh/private_key"]],
     Host.idle, Returned tt).
Proof.
  apply (disconnect_single_silent (Host.machine_of Host.sample)
           Host.idle Host.idle "proxy1"
           {| name := "proxy1"; host := "172.31.0.51"; port := PInt 9051;
              identity_file := "~/.ssh/private_key" |} 1%Z);
    [discriminate | reflexivity | reflexivity | lia].
Defined.

(** ** The loops over the configured proxies *)

Section ReplayFacts.
Context {OS : Type} (m : machine OS).

Lemma replay_length (cmds : list (list string)) :
  forall os, List.length (fst (replay m cmds os)) = List.length cmds.
Proof.
  induction cmds as [|argv rest IH]; intros os; simpl; [reflexivity|].
  destruct (spawn m argv os) as [c os1].
  specialize (IH os1). destruct (replay m rest os1) as [cs os2].
  simpl in *. now rewrite IH.
Qed.

Lemma disconnect_each_run (proxies : list proxy) :
  forall (any : bool) (os os' : OS) (cs : list completed),
    replay m (map (pkill_cmd m) proxies) os = (cs, os') ->
    forallb started cs = true ->
    disconnect_each m proxies any os
    = (kill_log m proxies cs, os', Returned (any || existsb succeeded cs)).
Proof.
  induction proxies as [|p ps IH]; intros any os os' cs Hrep Hst; simpl in *.
  - injection Hrep as <- <-. simpl. now rewrite orb_false_r.
  - unfold bind. rewrite disconnect_single_run.
    destruct (spawn m (pkill_cmd m p) os) as [c os1].
    destruct (replay m (map (pkill_cmd m) ps) os1) as [cs1 os2] eqn:Hrest.
    injection Hrep as <- <-. simpl in Hst.
    apply andb_true_iff in Hst as [Hc Hcs].
    destruct c as [rc|]; [|discriminate].
    simpl. destruct (rc =? 0)%Z.
    + rewrite (IH true os1 os2 cs1 Hrest Hcs). simpl.
      now rewrite orb_true_r.
    + rewrite (IH any os1 os2 cs1 Hrest Hcs). reflexivity.
Qed.

Lemma execs_kill_log (proxies : list proxy) :
  forall cs, List.length cs = List.length proxies ->
             execs (kill_log m proxies cs) = map (pkill_cmd m) proxies.
Proof.
  induction proxies as [|p ps IH]; intros [|c cs] Hlen; simpl in *;
    try discriminate; [reflexivity|].
  injection Hlen as Hlen.
  destruct (succeeded c); simpl; now rewrite IH.
Qed.

Lemma prints_kill_log (proxies : list proxy) :
  forall cs line, In line (prints (kill_log m proxies cs)) ->
                  exists p, line = disconnected_message p.
Proof.
  induction proxies as [|p ps IH]; intros [|c cs] line; simpl; try tauto.
  destruct (succeeded c); simpl.
  - intros [<-|Hin]; eauto.
  - eauto.
Qed.
End ReplayFacts.

Lemma execs_app (l1 l2 : list event) :
  execs (l1 ++ l2) = (execs l1 ++ execs l2)%list.
Proof.
  induction l1 as [|[line|argv|] l1 IH]; simpl; rewrite ?IH; reflexivity.
Qed.

Lemma prints_app (l1 l2 : list event) :
  prints (l1 ++ l2) = (prints l1 ++ prints l2)%list.
Proof.
  induction l1 as [|[line|argv|] l1 IH]; simpl; rewrite ?IH; reflexivity.
Qed.

Lemma existsb_false {A} (f : A -> bool) (l : list A) :
  existsb f l = false <-> (forall x, In x l -> f x = false).
Proof.
  induction l as [|a l IH]; simpl.
  - split; [tauto | reflexivity].
  - rewrite orb_false_iff, IH. split.
    + intros [Ha Hl] x [<-|Hx]; auto.
    + intros H. split; auto.
Qed.

Section DisconnectAll.
Context {OS : Type} (m : machine OS).

Lemma proxy_disconnect_all_run (os os' : OS) (proxies : list proxy)
                               (cs : list completed) :
  load (config m) = Returned proxies ->
  replay m (map (pkill_cmd m) proxies) os = (cs, os') ->
  forallb started cs = true ->
  proxy_disconnect m "all" os
  = ((Print "Disconnecting from all configured proxies."
      :: kill_log m proxies cs
      ++ (if existsb succeeded cs then [] else [Print no_active_message]))%list,
     os', Returned tt).
Proof.
  intros Hload Hrep Hst.
  unfold proxy_disconnect. rewrite String.eqb_refl.
  unfold bind at 1. rewrite parse_proxy_config_run, Hload.
  unfold bind at 1. unfold print at 1.
  unfold bind at 1.
  rewrite (disconnect_each_run m proxies false os os' cs Hrep Hst).
  simpl orb. destruct (existsb succeeded cs); simpl.
  - reflexivity.
  - reflexivity.
Qed.

(** [disconnect all], when the configuration loads and every [pkill] can
    be started: one [pkill] per configured proxy, in configuration
    order, each on the process table left by the one before, and no other
    child process; the command returns normally; and the line "No active
    proxies were found to disconnect." is printed if and only if every
    one of these kill attempts failed (none exited with status zero). *)
Theorem disconnect_all_attempts :
  forall (os os' : OS) (proxies : list proxy) (cs : list completed),
    load (config m) = Returned proxies ->
    replay m (map (pkill_cmd m) proxies) os = (cs, os') ->
    forallb started cs = true ->
    result_of (proxy_disconnect m "all" os) = Returned tt
    /\ os_of (proxy_disconnect m "all" os) = os'
    /\ execs (log_of (proxy_disconnect m "all" os))
       = map (pkill_cmd m) proxies
    /\ List.length (execs (log_of (proxy_disconnect m "all" os)))
       = List.length proxies
    /\ (In no_active_message (prints (log_of (proxy_disconnect m "all" os)))
        <-> (forall c, In c cs -> succeeded c = false)).
Proof.
  intros os os' proxies cs Hload Hrep Hst.
  rewrite (proxy_disconnect_all_run os os' proxies cs Hload Hrep Hst).
  unfold result_of, os_of, log_of. simpl fst. simpl snd.
  assert (Hlen : List.length cs = List.length proxies).
  { pose proof (replay_length m (map (pkill_cmd m) proxies) os) as H.
    rewrite Hrep, length_map in H. exact H. }
  assert (Hexecs : execs (Print "Disconnecting from all configured proxies."
                          :: kill_log m proxies cs
                          ++ (if existsb succeeded cs then []
                              else [Print no_active_message]))
                   = map (pkill_cmd m) proxies).
  { simpl. rewrite execs_app, (execs_kill_log m proxies cs Hlen).
    destruct (existsb succeeded cs); simpl; now rewrite app_nil_r. }
  split; [reflexivity|]. split; [reflexivity|].
  split; [exact Hexecs|].
  split; [rewrite Hexecs; apply length_map|].
  rewrite <- existsb_false. simpl prints. rewrite prints_app. split.
  - intros [Habs|Hin]; [discriminate Habs|].
    apply in_app_or in Hin as [Hin|Hin].
    + apply prints_kill_log in Hin as (p & Hp). discriminate Hp.
    + destruct (existsb succeeded cs); [destruct Hin | reflexivity].
  - intros ->. right. apply in_or_app. right. simpl. auto.
Qed.
End DisconnectAll.

(** The sample file with both tunnels down: two attempts, none succeeds,
    the message is printed. *)
Lemma disconnect_all_attempts_witness :
  execs (log_of (proxy_disconnect (Host.machine_of Host.sample) "all" Host.idle))
  = [ ["pkill"; "-f";
       "ssh -D 9051 -N 172.31.0.51 -q -C -f -i /home/op/.ssh/private_key"];
      ["pkill"; "-f"; "ssh -D 9052 -N 172.31.0.52 -q -C -f -i "] ].
Proof.
  destruct (disconnect_all_attempts (Host.machine_of Host.sample)
              Host.idle Host.idle
              [ {| name := "proxy1"; host := "172.31.0.51"; port := PInt 9051;
                   identity_file := "~/.ssh/private_key" |};
                {| name := "proxy2"; host := "172.31.0.52"; port := PInt 9052;
                   identity_file := "" |} ]
              [Exited 1; Exited 1])
    as (_ & _ & Hexecs & _); [reflexivity | reflexivity | reflexivity |].
  exact Hexecs.
Defined.

(** ** Status *)

Section StatusRuns.
Context {OS : Type} (m : machine OS).

Lemma is_running_run (p : proxy) (os : OS) :
  is_running m p os
  = match spawn m (search_cmd m p) os with
    | (Exited rc, os') =>
        ([Exec (search_cmd m p)], os', Returned (rc =? 0)%Z)
    | (NotStarted, os') =>
        ([Exec (search_cmd m p)], os', Raised SpawnError)
    end.
Proof.
  unfold is_running. unfold_monad.
  destruct (spawn m (search_cmd m p) os) as [[rc|] os']; reflexivity.
Qed.

Lemma status_scan_run (proxies : list proxy) :
  forall (connected : list string) (os os' : OS) (cs : list completed),
    replay m (map (search_cmd m) proxies) os = (cs, os') ->
    forallb started cs = true ->
    status_scan m proxies connected os
    = (map Exec (map (search_cmd m) proxies), os',
       Returned (connected ++ found_names proxies cs)%list).
Proof.
  induction proxies as [|p ps IH]; intros acc os os' cs Hrep Hst; simpl in *.
  - injection Hrep as <- <-. unfold ret. now rewrite app_nil_r.
  - unfold bind. rewrite is_running_run.
    destruct (spawn m (search_cmd m p) os) as [c os1].
    destruct (replay m (map (search_cmd m) ps) os1) as [cs1 os2] eqn:Hrest.
    injection Hrep as <- <-. simpl in Hst.
    apply andb_true_iff in Hst as [Hc Hcs].
    destruct c as [rc|]; [|discriminate].
    rewrite (IH _ os1 os2 cs1 Hrest Hcs). simpl.
    destruct (rc =? 0)%Z; simpl; [now rewrite <- app_assoc | reflexivity].
Qed.

Lemma found_names_nil (proxies : list proxy) :
  forall cs, List.length cs = List.length proxies ->
             (found_names proxies cs = [] <-> existsb succeeded cs = false).
Proof.
  induction proxies as [|p ps IH]; intros [|c cs] Hlen; simpl in *;
    try discriminate; [tauto|].
  injection Hlen as Hlen. specialize (IH cs Hlen).
  destruct (succeeded c); simpl; [|exact IH].
  split; discriminate.
Qed.

(** Every run of [proxy_status] in which the configuration loads and
    each [pgrep] can be started. *)
Lemma proxy_status_run (verbose : bool) (os os' : OS)
                       (proxies : list proxy) (cs : list completed) :
  load (config m) = Returned proxies ->
  replay m (map (search_cmd m) proxies) os = (cs, os') ->
  forallb started cs = true ->
  proxy_status m verbose os
  = let scan := map Exec (map (search_cmd m) proxies) in
    match found_names proxies cs with
    | [] =>
        ((scan ++ [Print "No proxies appear to be connected."])%list,
         os', Returned tt)
    | _ :: _ =>
        if verbose then
          ((scan ++ [Print "Running verbose status command:";
                    Exec shell_argv])%list,
           snd (spawn m shell_argv os'),
           if started (fst (spawn m shell_argv os'))
           then Returned tt else Raised SpawnError)
        else
          ((scan ++ [Print "Currently connected proxies:"])%list,
           os', Raised TypeError)
    end.
Proof.
  intros Hload Hrep Hst. unfold proxy_status.
  unfold bind at 1. rewrite parse_proxy_config_run, Hload.
  unfold bind at 1.
  rewrite (status_scan_run proxies [] os os' cs Hrep Hst).
  rewrite app_nil_l. cbv zeta.
  destruct (found_names proxies cs) as [|n ns].
  - reflexivity.
  - destruct verbose.
    + unfold shell_argv. unfold_monad.
      destruct (spawn m ["/bin/sh"; "-c"; verbose_cmd] os') as [[rc|] os''];
        reflexivity.
    + reflexivity.
Qed.
End StatusRuns.

(** C6, as stated, fails where the search tool cannot be run at all: the
    check does not answer [False], it raises. *)
Lemma is_running_counterexample :
  result_of (is_running (Host.machine_of Host.sample) proxy1 without_pgrep)
    = Raised SpawnError
  /\ result_of (is_running (Host.machine_of Host.sample) proxy1 without_pgrep)
     <> Returned false.
Proof. split; [reflexivity | discriminate]. Qed.

(** C6, amended.  The per-proxy check starts one [pgrep -af <status
    pattern>]; when it exits, the check is true exactly for exit status
    zero and false for every other status; when [pgrep] cannot be started
    the check raises, and the exception leaves [proxy_status] uncaught. *)
Theorem is_running_exit_status :
  forall (OS : Type) (m : machine OS) (p : proxy) (os : OS),
    execs (log_of (is_running m p os))
      = [ ["pgrep"; "-af"; status_pattern (expanduser m) p] ]
    /\ (forall rc os',
          spawn m (search_cmd m p) os = (Exited rc, os') ->
          (result_of (is_running m p os) = Returned true <-> rc = 0%Z)
          /\ (result_of (is_running m p os) = Returned false <-> rc <> 0%Z))
    /\ (forall os',
          spawn m (search_cmd m p) os = (NotStarted, os') ->
          result_of (is_running m p os) = Raised SpawnError
          /\ forall verbose rest,
               load (config m) = Returned (p :: rest) ->
               result_of (proxy_status m verbose os) = Raised SpawnError).
Proof.
  intros OS m p os. rewrite is_running_run. repeat split.
  - destruct (spawn m (search_cmd m p) os) as [[rc|] os']; reflexivity.
  - rewrite H. unfold result_of; simpl. intros E. injection E as E.
    now apply Z.eqb_eq.
  - intros ->. rewrite H. reflexivity.
  - rewrite H. unfold result_of; simpl. intros E. injection E as E.
    now apply Z.eqb_neq.
  - intros Hne. rewrite H. unfold result_of; simpl.
    apply Z.eqb_neq in Hne. now rewrite Hne.
  - rewrite H. reflexivity.
  - intros verbose rest Hload. unfold proxy_status.
    unfold bind at 1. rewrite parse_proxy_config_run, Hload.
    unfold bind at 1. simpl status_scan. unfold bind at 1.
    rewrite is_running_run, H. reflexivity.
Qed.

Lemma is_running_exit_status_witness :
  result_of (is_running (Host.machine_of Host.sample) proxy1 tunnel_up)
    = Returned true
  /\ result_of (is_running (Host.machine_of Host.sample) proxy1 Host.idle)
     = Returned false
  /\ result_of (proxy_status (Host.machine_of Host.sample) false without_pgrep)
     = Raised SpawnError.
Proof.
  destruct (is_running_exit_status Host.os (Host.machine_of Host.sample)
              proxy1 tunnel_up) as (_ & Hup & _).
  destruct (is_running_exit_status Host.os (Host.machine_of Host.sample)
              proxy1 Host.idle) as (_ & Hdown & _).
  destruct (is_running_exit_status Host.os (Host.machine_of Host.sample)
              proxy1 without_pgrep) as (_ & _ & Hnone).
  split; [|split].
  - apply (Hup 0%Z tunnel_up); reflexivity.
  - apply (Hdown 1%Z Host.idle); [reflexivity | lia].
  - destruct (Hnone without_pgrep) as [_ Hstatus]; [reflexivity|].
    apply (Hstatus false
             [ {| name := "proxy2"; host := "172.31.0.52"; port := PInt 9052;
                  identity_file := "" |} ]).
    reflexivity.
Defined.

Lemma execs_map_Exec (cmds : list (list string)) :
  execs (map Exec cmds) = cmds.
Proof. induction cmds as [|c cs IH]; simpl; [reflexivity | now rewrite IH]. Qed.

Lemma prints_map_Exec (cmds : list (list string)) :
  prints (map Exec cmds) = [].
Proof. induction cmds as [|c cs IH]; simpl; [reflexivity | exact IH]. Qed.

(** C4, as stated, fails when no tunnel is up: verbose status runs one
    [pgrep] per proxy and then no diagnostic at all. *)
Lemma verbose_status_counterexample :
  let log := log_of (proxy_status (Host.machine_of Host.sample) true Host.idle) in
  execs log
  = [ ["pgrep"; "-af";
       "ssh -D 9051 -i /home/op/.ssh/private_key -q -C -f -N 172.31.0.51"];
      ["pgrep"; "-af"; "ssh -D 9052 -i  -q -C -f -N 172.31.0.52"] ]
  /\ ~ In shell_argv (execs log)
  /\ prints log = ["No proxies appear to be connected."].
Proof.
  cbv zeta. repeat split.
  intros [H|[H|[]]]; discriminate H.
Qed.

(** Verbose status when every [pgrep] can be started: [proxy_status]
    still runs the per-proxy [pgrep] for every configured proxy, in
    configuration order.
    The diagnostic pipeline is started, after the line "Running verbose
    status command:", exactly when at least one of them exited with status
    zero, and it then replaces the list of connected proxies; when none
    did, the only line is "No proxies appear to be connected." and no
    diagnostic runs. *)
Theorem verbose_status_gated :
  forall (OS : Type) (m : machine OS) (os os' : OS)
         (proxies : list proxy) (cs : list completed),
    load (config m) = Returned proxies ->
    replay m (map (search_cmd m) proxies) os = (cs, os') ->
    forallb started cs = true ->
    execs (log_of (proxy_status m true os))
      = (map (search_cmd m) proxies
         ++ (if existsb succeeded cs then [shell_argv] else []))%list
    /\ prints (log_of (proxy_status m true os))
       = (if existsb succeeded cs
          then ["Running verbose status command:"]
          else ["No proxies appear to be connected."])
    /\ (In shell_argv (execs (log_of (proxy_status m true os)))
        <-> exists c, In c cs /\ succeeded c = true).
Proof.
  intros OS m os os' proxies cs Hload Hrep Hst.
  assert (Hlen : List.length cs = List.length proxies).
  { pose proof (replay_length m (map (search_cmd m) proxies) os) as H.
    rewrite Hrep, length_map in H. exact H. }
  rewrite (proxy_status_run m true os os' proxies cs Hload Hrep Hst).
  cbv zeta. rewrite <- existsb_exists.
  pose proof (found_names_nil proxies cs Hlen) as Hnil.
  destruct (found_names proxies cs) as [|n ns].
  - assert (E : existsb succeeded cs = false) by now apply Hnil.
    rewrite E. unfold log_of. simpl fst.
    rewrite execs_app, prints_app, execs_map_Exec, prints_map_Exec.
    simpl. rewrite app_nil_r. repeat split; try discriminate.
    intros Hin. apply in_map_iff in Hin as (p & Hp & _). discriminate Hp.
  - assert (E : existsb succeeded cs = true).
    { destruct (existsb succeeded cs); [reflexivity|].
      assert (Habs : n :: ns = []) by now apply Hnil. discriminate Habs. }
    rewrite E. unfold log_of. simpl fst.
    rewrite execs_app, prints_app, execs_map_Exec, prints_map_Exec.
    simpl. repeat split; auto.
    intros _. apply in_or_app. right. simpl. auto.
Qed.

(** With the tunnel of [proxy1] up, the two [pgrep] calls are followed by
    the diagnostic. *)
Lemma verbose_status_gated_witness :
  execs (log_of (proxy_status (Host.machine_of Host.sample) true tunnel_up))
  = [ ["pgrep"; "-af";
       "ssh -D 9051 -i /home/op/.ssh/private_key -q -C -f -N 172.31.0.51"];
      ["pgrep"; "-af"; "ssh -D 9052 -i  -q -C -f -N 172.31.0.52"];
      shell_argv ].
Proof.
  destruct (verbose_status_gated Host.os (Host.machine_of Host.sample)
              tunnel_up tunnel_up
              [ proxy1;
                {| name := "proxy2"; host := "172.31.0.52"; port := PInt 9052;
                   identity_file := "" |} ]
              [Exited 0; Exited 1])
    as (Hexecs & _); [reflexivity | reflexivity | reflexivity |].
  exact Hexecs.
Defined.

(** C5.  With the tunnel of [proxy1] up, plain [status] runs both checks,
    prints the heading, and then stops with a [TypeError]: the loop that
    prints the connected proxies subscripts the collected NAME, a string,
    with ["name"].  No line for [proxy1] is printed. *)
Theorem status_listing_raises :
  proxy_status (Host.machine_of Host.sample) false tunnel_up
  = ([ Exec ["pgrep"; "-af";
             "ssh -D 9051 -i /home/op/.ssh/private_key -q -C -f -N 172.31.0.51"];
       Exec ["pgrep"; "-af"; "ssh -D 9052 -i  -q -C -f -N 172.31.0.52"];
       Print "Currently connected proxies:" ],
     tunnel_up, Raised TypeError).
Proof. reflexivity. Qed.

(** The same on every machine: whenever some proxy is found running,
    plain [status] ends in a [TypeError] after the heading. *)
Lemma status_listing_raises_always :
  forall (OS : Type) (m : machine OS) (os os' : OS)
         (proxies : list proxy) (cs : list completed),
    load (config m) = Returned proxies ->
    replay m (map (search_cmd m) proxies) os = (cs, os') ->
    forallb started cs = true ->
    existsb succeeded cs = true ->
    result_of (proxy_status m false os) = Raised TypeError
    /\ prints (log_of (proxy_status m false os))
       = ["Currently connected proxies:"].
Proof.
  intros OS m os os' proxies cs Hload Hrep Hst Hsome.
  assert (Hlen : List.length cs = List.length proxies).
  { pose proof (replay_length m (map (search_cmd m) proxies) os) as H.
    rewrite Hrep, length_map in H. exact H. }
  rewrite (proxy_status_run m false os os' proxies cs Hload Hrep Hst).
  cbv zeta.
  pose proof (found_names_nil proxies cs Hlen) as Hnil.
  destruct (found_names proxies cs) as [|n ns].
  - assert (E : existsb succeeded cs = false) by now apply Hnil.
    rewrite E in Hsome. discriminate Hsome.
  - unfold log_of, result_of. simpl fst. simpl snd.
    rewrite prints_app, prints_map_Exec. split; reflexivity.
Qed.

(** When nothing is found running, plain [status] prints the "none"
    line and returns. *)
Lemma status_none_running :
  forall (OS : Type) (m : machine OS) (os os' : OS)
         (proxies : list proxy) (cs : list completed),
    load (config m) = Returned proxies ->
    replay m (map (search_cmd m) proxies) os = (cs, os') ->
    forallb started cs = true ->
    existsb succeeded cs = false ->
    result_of (proxy_status m false os) = Returned tt
    /\ prints (log_of (proxy_status m false os))
       = ["No proxies appear to be connected."].
Proof.
  intros OS m os os' proxies cs Hload Hrep Hst Hnone.
  assert (Hlen : List.length cs = List.length proxies).
  { pose proof (replay_length m (map (search_cmd m) proxies) os) as H.
    rewrite Hrep, length_map in H. exact H. }
  rewrite (proxy_status_run m false os os' proxies cs Hload Hrep Hst).
  cbv zeta.
  apply (found_names_nil proxies cs Hlen) in Hnone. rewrite Hnone.
  unfold log_of, result_of. simpl fst. simpl snd.
  rewrite prints_app, prints_map_Exec. split; reflexivity.
Qed.

(** ** Loading failures *)

Lemma main_load_failure :
  forall (OS : Type) (m : machine OS) (os : OS) (a : args) (e : exn),
    load (config m) = Raised e ->
    a <> NoCommand ->
    main m a os
    = (match a with
       | List => [Print "Listing configured Proxies:"]
       | _ => []
       end, os, Raised e).
Proof.
  intros OS m os a e Hload Ha.
  destruct a as [verbose| |n|n|n|]; simpl.
  - unfold proxy_status. unfold bind at 1.
    now rewrite parse_proxy_config_run, Hload.
  - unfold proxy_list. unfold bind at 1. unfold print at 1.
    unfold bind at 1. now rewrite parse_proxy_config_run, Hload.
  - unfold proxy_info. unfold bind at 1.
    now rewrite proxy_search_run, Hload.
  - unfold proxy_connect. unfold bind at 1.
    now rewrite proxy_search_run, Hload.
  - unfold proxy_disconnect. destruct (n =? "all")%string.
    + unfold bind at 1. now rewrite parse_proxy_config_run, Hload.
    + unfold bind at 1. now rewrite proxy_search_run, Hload.
  - now contradiction Ha.
Qed.

(** C2, as stated, fails: with no configuration file, [list] is ended by
    the exception of [open], which nothing catches; the only line printed
    is the heading written before the file is opened. *)
Lemma missing_config_counterexample :
  main (Host.machine_of NoSuchFile) List Host.idle
  = ([Print "Listing configured Proxies:"], Host.idle, Raised FileNotFoundError)
  /\ result_of (main (Host.machine_of NoSuchFile) List Host.idle)
     <> Returned tt.
Proof. split; [reflexivity | discriminate]. Qed.

(** C2, amended.  When the configuration file does not exist, loading
    raises [FileNotFoundError]; when its text is not valid YAML, loading
    raises [YAMLError].  No command catches either: every command is
    ended by that exception, which leaves [main] uncaught, having started
    no child process and printed no message about the failure ([list]
    alone has printed its heading before loading). *)
Theorem load_failure_propagates :
  forall (OS : Type) (m : machine OS) (os : OS) (a : args),
    a <> NoCommand ->
    (config m = NoSuchFile ->
       result_of (parse_proxy_config m os) = Raised FileNotFoundError
       /\ result_of (main m a os) = Raised FileNotFoundError
       /\ execs (log_of (main m a os)) = []
       /\ forall line, In line (prints (log_of (main m a os))) ->
                       a = List /\ line = "Listing configured Proxies:")
    /\ (config m = InvalidYaml ->
         result_of (parse_proxy_config m os) = Raised YAMLError
         /\ result_of (main m a os) = Raised YAMLError
         /\ execs (log_of (main m a os)) = []
         /\ forall line, In line (prints (log_of (main m a os))) ->
                         a = List /\ line = "Listing configured Proxies:").
Proof.
  intros OS m os a Ha.
  split; intros Hcfg.
  - assert (Hload : load (config m) = Raised FileNotFoundError)
      by now rewrite Hcfg.
    rewrite (main_load_failure OS m os a _ Hload Ha).
    rewrite parse_proxy_config_run, Hload.
    unfold result_of, log_of. simpl fst. simpl snd.
    repeat split; destruct a; simpl in *; try reflexivity; try tauto;
      destruct H as [H|[]]; now subst.
  - assert (Hload : load (config m) = Raised YAMLError)
      by now rewrite Hcfg.
    rewrite (main_load_failure OS m os a _ Hload Ha).
    rewrite parse_proxy_config_run, Hload.
    unfold result_of, log_of. simpl fst. simpl snd.
    repeat split; destruct a; simpl in *; try reflexivity; try tauto;
      destruct H as [H|[]]; now subst.
Qed.

Lemma load_failure_propagates_witness :
  result_of (main (Host.machine_of NoSuchFile) (Connect "proxy1") Host.idle)
    = Raised FileNotFoundError
  /\ result_of (main (Host.machine_of InvalidYaml) (Status false) Host.idle)
     = Raised YAMLError.
Proof.
  split.
  - destruct (load_failure_propagates Host.os (Host.machine_of NoSuchFile)
                Host.idle (Connect "proxy1")) as [Hmissing _];
      [discriminate|].
    destruct Hmissing as (_ & Hmain & _); [reflexivity | exact Hmain].
  - destruct (load_failure_propagates Host.os (Host.machine_of InvalidYaml)
                Host.idle (Status false)) as [_ Hinvalid];
      [discriminate|].
    destruct Hinvalid as (_ & Hmain & _); [reflexivity | exact Hmain].
Defined.

(** ** Listing and showing proxies *)

Lemma prints_map_Print {A} (line : A -> string) (xs : list A) :
  prints (map (fun x => Print (line x)) xs) = map line xs.
Proof. induction xs as [|x rest IH]; simpl; [reflexivity | now rewrite IH]. Qed.

Lemma execs_map_Print {A} (line : A -> string) (xs : list A) :
  execs (map (fun x => Print (line x)) xs) = [].
Proof. induction xs as [|x rest IH]; simpl; [reflexivity | exact IH]. Qed.

Section ReadOnly.
Context {OS : Type} (m : machine OS).

Lemma for_each_print {A} (line : A -> string) (xs : list A) (os : OS) :
  for_each xs (fun x => print (line x)) os
  = (map (fun x => Print (line x)) xs, os, Returned tt).
Proof.
  induction xs as [|x rest IH]; simpl; [reflexivity|].
  unfold bind, print at 1. rewrite IH. reflexivity.
Qed.

(** X1.  When the configuration loads, [proxy_list] prints its heading
    and then one line [- name (host:port)] per configured proxy, in
    configuration order; it starts no child process, leaves the operating
    system untouched and returns normally. *)
Theorem proxy_list_lines :
  forall (os : OS) (proxies : list proxy),
    load (config m) = Returned proxies ->
    proxy_list m os
    = (Print "Listing configured Proxies:"
       :: map (fun p => Print ("- " ++ name p ++ " (" ++ host p ++ ":"
                               ++ py_str (port p) ++ ")")) proxies,
       os, Returned tt)
    /\ List.length (prints (log_of (proxy_list m os)))
       = S (List.length proxies)
    /\ execs (log_of (proxy_list m os)) = [].
Proof.
  intros os proxies Hload.
  assert (Hrun : proxy_list m os
                 = (Print "Listing configured Proxies:"
                    :: map (fun p => Print (proxy_line (name p) (host p)
                                                       (py_str (port p))))
                           proxies,
                    os, Returned tt)).
  { unfold proxy_list. unfold bind at 1. unfold print at 1.
    unfold bind at 1. rewrite parse_proxy_config_run, Hload.
    rewrite for_each_print. reflexivity. }
  rewrite Hrun. unfold log_of. simpl fst. split; [reflexivity|].
  simpl. rewrite prints_map_Print, execs_map_Print, length_map.
  split; reflexivity.
Qed.
End ReadOnly.

Lemma proxy_list_lines_witness :
  prints (log_of (proxy_list (Host.machine_of Host.sample) Host.idle))
  = [ "Listing configured Proxies:";
      "- proxy1 (172.31.0.51:9051)";
      "- proxy2 (172.31.0.52:9052)" ].
Proof.
  destruct (proxy_list_lines (Host.machine_of Host.sample) Host.idle
              [ proxy1;
                {| name := "proxy2"; host := "172.31.0.52"; port := PInt 9052;
                   identity_file := "" |} ]) as (Hrun & _);
    [reflexivity|].
  rewrite Hrun. reflexivity.
Defined.

Lemma search_absent (proxies : list proxy) (n : string) :
  ~ In n (map name proxies) -> search proxies n = None.
Proof.
  intros Hnot. destruct (search proxies n) as [p|] eqn:E; [|reflexivity].
  exfalso. apply Hnot. destruct (search_some _ _ _ E) as [Hin <-].
  now apply in_map.
Qed.

(** X2.  [proxy_info] for a configured name prints four lines: the name
    asked for, the host, the port and the identity file exactly as the
    configuration gives it (no [~] expansion); it starts no child process
    and leaves the operating system untouched. *)
Theorem proxy_info_found :
  forall (OS : Type) (m : machine OS) (os : OS) (n : string)
         (proxies : list proxy) (p : proxy),
    load (config m) = Returned proxies ->
    search proxies n = Some p ->
    proxy_info m n os
    = ([ Print ("Proxy: " ++ n);
         Print ("  Host: " ++ host p);
         Print ("  Port: " ++ py_str (port p));
         Print ("  Identity File: " ++ identity_file p) ],
       os, Returned tt)
    /\ In p proxies.
Proof.
  intros OS m os n proxies p Hload Hfind.
  destruct (search_some _ _ _ Hfind) as [Hin Hname].
  split; [|exact Hin].
  unfold proxy_info. unfold bind at 1.
  rewrite proxy_search_run, Hload, Hfind, Hname. reflexivity.
Qed.

Lemma proxy_info_found_witness :
  proxy_info (Host.machine_of Host.sample) "proxy1" Host.idle
  = ([ Print "Proxy: proxy1";
       Print "  Host: 172.31.0.51";
       Print "  Port: 9051";
       Print "  Identity File: ~/.ssh/private_key" ],
     Host.idle, Returned tt).
Proof.
  destruct (proxy_info_found Host.os (Host.machine_of Host.sample) Host.idle
              "proxy1"
              [ proxy1;
                {| name := "proxy2"; host := "172.31.0.52"; port := PInt 9052;
                   identity_file := "" |} ]
              proxy1) as (Hrun & _); [reflexivity | reflexivity |].
  exact Hrun.
Defined.

(** X3.  A name that is no key of the configuration: [info], [connect]
    and (for a name other than ["all"]) [disconnect] each print the single
    line [Error: Proxy '<name>' not found in <CONFIG_FILE>.], start no
    child process, leave the operating system untouched and return
    normally. *)
Theorem unknown_proxy_reported :
  forall (OS : Type) (m : machine OS) (os : OS) (n : string)
         (proxies : list proxy),
    load (config m) = Returned proxies ->
    ~ In n (map name proxies) ->
    let report :=
      ([Print ("Error: Proxy '" ++ n ++ "' not found in " ++ CONFIG_FILE m
               ++ ".")], os, Returned tt) in
    proxy_info m n os = report
    /\ proxy_connect m n os = report
    /\ (n <> "all" -> proxy_disconnect m n os = report).
Proof.
  intros OS m os n proxies Hload Habsent report. subst report.
  apply search_absent in Habsent.
  split; [|split].
  - unfold proxy_info. unfold bind at 1.
    rewrite proxy_search_run, Hload, Habsent. reflexivity.
  - unfold proxy_connect. unfold bind at 1.
    rewrite proxy_search_run, Hload, Habsent. reflexivity.
  - intros Hn. apply String.eqb_neq in Hn.
    unfold proxy_disconnect. rewrite Hn. unfold bind at 1.
    rewrite proxy_search_run, Hload, Habsent. reflexivity.
Qed.

Lemma unknown_proxy_reported_witness :
  proxy_connect (Host.machine_of Host.sample) "nonexistent" Host.idle
  = ([Print "Error: Proxy 'nonexistent' not found in /opt/socksies/proxy-config.yml."],
     Host.idle, Returned tt).
Proof.
  destruct (unknown_proxy_reported Host.os (Host.machine_of Host.sample)
              Host.idle "nonexistent"
              [ proxy1;
                {| name := "proxy2"; host := "172.31.0.52"; port := PInt 9052;
                   identity_file := "" |} ]) as (_ & Hconnect & _).
  - reflexivity.
  - simpl. intros [H|[H|[]]]; discriminate H.
  - exact Hconnect.
Defined.

(** ** Connect: outcomes *)

Lemma str_truthy_false (s : string) : str_truthy s = false <-> s = "".
Proof. destruct s; simpl; split; congruence. Qed.

Lemma port_truthy_false (v : port_value) :
  port_truthy v = false <-> v = PInt 0 \/ v = PStr "".
Proof.
  destruct v as [z|s]; simpl.
  - rewrite negb_false_iff, Z.eqb_eq. split.
    + intros ->. now left.
    + intros [H|H]; [now injection H | discriminate H].
  - rewrite str_truthy_false. split.
    + intros ->. now right.
    + intros [H|H]; [discriminate H | now injection H].
Qed.

Lemma incomplete_true (h : string) (v : port_value) (i : string) :
  incomplete h v i = true <-> h = "" \/ v = PInt 0 \/ v = PStr "" \/ i = "".
Proof.
  unfold incomplete.
  rewrite !orb_true_iff, !negb_true_iff, !str_truthy_false, port_truthy_false.
  tauto.
Qed.

(** X4.  For the record that the lookup finds, [proxy_connect] starts
    [ssh] if and only if the host is not the empty string, the port is
    neither the integer 0 nor the empty string, and the identity file is
    not the empty string; in every other case it prints the
    incomplete-config error alone and starts nothing. *)
Theorem connect_runs_ssh_iff :
  forall (OS : Type) (m : machine OS) (os : OS) (n : string) (p : proxy),
    result_of (_proxy_search m n os) = Returned (Some p) ->
    (execs (log_of (proxy_connect m n os)) = [connect_cmd (expanduser m) p]
     <-> host p <> "" /\ port p <> PInt 0 /\ port p <> PStr ""
         /\ identity_file p <> "")
    /\ (proxy_connect m n os
        = ([Print ("Error: Incomplete config for '" ++ n
                   ++ "'. Check host, port, and identity_file.")],
           os, Returned tt)
        <-> host p = "" \/ port p = PInt 0 \/ port p = PStr ""
            \/ identity_file p = "").
Proof.
  intros OS m os n p Hfound.
  rewrite (proxy_connect_execs m n os p Hfound).
  rewrite (proxy_connect_found m n os p Hfound).
  pose proof (incomplete_true (host p) (port p) (identity_file p)) as Hinc.
  destruct (incomplete (host p) (port p) (identity_file p)).
  - assert (Hbad : host p = "" \/ port p = PInt 0 \/ port p = PStr ""
                   \/ identity_file p = "") by now apply Hinc.
    split; split; auto; try discriminate. tauto.
  - assert (Hgood : ~ (host p = "" \/ port p = PInt 0 \/ port p = PStr ""
                       \/ identity_file p = "")).
    { intros Hbad. apply Hinc in Hbad. discriminate Hbad. }
    split; split; auto; try tauto.
    cbv zeta.
    destruct (spawn m (connect_cmd (expanduser m) p) os) as [[rc|] os'];
      [destruct (rc =? 0)%Z|]; intros H; inversion H.
Qed.

Lemma connect_runs_ssh_iff_witness :
  execs (log_of (proxy_connect (Host.machine_of Host.sample) "proxy1"
                               Host.idle))
  = [ ["ssh"; "-D"; "9051"; "-i"; "/home/op/.ssh/private_key";
       "-q"; "-C"; "-f"; "-N"; "172.31.0.51"] ].
Proof.
  destruct (connect_runs_ssh_iff Host.os (Host.machine_of Host.sample)
              Host.idle "proxy1" proxy1) as ([_ Hruns] & _);
    [reflexivity|].
  apply Hruns. repeat split; discriminate.
Defined.

(** X5.  Once a complete record is found, [proxy_connect] prints the two
    announcement lines (the second is "SSH command: " followed by the very
    string that [proxy_status] searches for) and starts [ssh] once.  When
    [ssh] exits with status zero the last line is "Connection established
    ..."; when it exits with any other status the error is caught, the
    last line starts "Error: Failed to connect to ..." and the command
    still returns normally; when [ssh] cannot be started at all the
    exception is not caught. *)
Theorem connect_outcomes :
  forall (OS : Type) (m : machine OS) (os : OS) (n : string) (p : proxy),
    result_of (_proxy_search m n os) = Returned (Some p) ->
    incomplete (host p) (port p) (identity_file p) = false ->
    let argv := connect_cmd (expanduser m) p in
    let announce :=
      [ "Establishing SOCKS proxy with: " ++ n ++ " (" ++ host p ++ ":"
        ++ py_str (port p) ++ ")";
        "SSH command: " ++ status_pattern (expanduser m) p ] in
    (forall os',
        spawn m argv os = (Exited 0, os') ->
        result_of (proxy_connect m n os) = Returned tt
        /\ os_of (proxy_connect m n os) = os'
        /\ prints (log_of (proxy_connect m n os))
           = (announce ++ [("Connection established to " ++ host p
                            ++ " on SOCKS port " ++ py_str (port p)
                            ++ ".")%string])%list)
    /\ (forall rc os',
          spawn m argv os = (Exited rc, os') -> rc <> 0%Z ->
          result_of (proxy_connect m n os) = Returned tt
          /\ os_of (proxy_connect m n os) = os'
          /\ exists detail,
               prints (log_of (proxy_connect m n os))
               = (announce ++ [("Error: Failed to connect to '" ++ n ++ "' ("
                                ++ host p ++ ":" ++ py_str (port p) ++ ")."
                                ++ newline ++ detail)%string])%list)
    /\ (forall os',
          spawn m argv os = (NotStarted, os') ->
          result_of (proxy_connect m n os) = Raised SpawnError
          /\ prints (log_of (proxy_connect m n os)) = announce).
Proof.
  intros OS m os n p Hfound Hcomplete argv announce. subst argv announce.
  rewrite (proxy_connect_found m n os p Hfound), Hcomplete. cbv zeta.
  rewrite join_connect_cmd.
  split; [|split].
  - intros os' ->. simpl. repeat split.
  - intros rc os' -> Hrc. apply Z.eqb_neq in Hrc. rewrite Hrc.
    simpl. repeat split. eexists. reflexivity.
  - intros os' ->. simpl. repeat split.
Qed.

Lemma connect_outcomes_witness :
  prints (log_of (proxy_connect (Host.machine_of Host.sample) "proxy1"
                                Host.idle))
  = [ "Establishing SOCKS proxy with: proxy1 (172.31.0.51:9051)";
      "SSH command: ssh -D 9051 -i /home/op/.ssh/private_key -q -C -f -N 172.31.0.51";
      "Connection established to 172.31.0.51 on SOCKS port 9051." ]
  /\ result_of (proxy_connect (unreachable Host.sample) "proxy1" Host.idle)
     = Returned tt.
Proof.
  split.
  - destruct (connect_outcomes Host.os (Host.machine_of Host.sample)
                Host.idle "proxy1" proxy1) as (Hok & _);
      [reflexivity | reflexivity |].
    destruct (Hok tunnel_up) as (_ & _ & Hprints); [reflexivity|].
    exact Hprints.
  - destruct (connect_outcomes Host.os (unreachable Host.sample)
                Host.idle "proxy1" proxy1) as (_ & Hfail & _);
      [reflexivity | reflexivity |].
    destruct (Hfail 255%Z Host.idle) as (Hres & _);
      [reflexivity | lia |].
    exact Hres.
Defined.

(** ** Entries that are not mappings *)

Lemma build_proxies_other (items : list (string * yaml_node)) :
  forall acc,
    Exists (fun kv => snd kv = YOther) items ->
    build_proxies items acc = Raised AttributeError.
Proof.
  induction items as [|[k node] rest IH]; intros acc Hex.
  - inversion Hex.
  - destruct node as [d|]; simpl; [|reflexivity].
    apply IH. inversion Hex as [? ? Hhead|? ? Htail]; subst;
      [discriminate Hhead | exact Htail].
Qed.

Lemma build_proxies_returned (items : list (string * yaml_node)) :
  forall acc ps,
    build_proxies items acc = Returned ps ->
    Forall (fun kv => exists d, snd kv = YMapping d) items
    /\ map name ps = (map name acc ++ map fst items)%list.
Proof.
  induction items as [|[k node] rest IH]; intros acc ps H; simpl in *.
  - injection H as <-. split; [constructor | now rewrite app_nil_r].
  - destruct node as [d|]; [|discriminate H].
    destruct (IH _ _ H) as [Hall Hnames]. split.
    + constructor; [simpl; eauto | exact Hall].
    + rewrite Hnames, map_app, <- app_assoc. reflexivity.
Qed.

Lemma build_proxies_total (items : list (string * yaml_node)) :
  forall acc,
    Forall (fun kv => exists d, snd kv = YMapping d) items ->
    exists ps, build_proxies items acc = Returned ps.
Proof.
  induction items as [|[k node] rest IH]; intros acc Hall; simpl.
  - eauto.
  - inversion Hall as [|? ? [d Hd] Hrest]; subst. simpl in Hd. subst node.
    apply IH. exact Hrest.
Qed.

(** X6.  A top-level mapping loads if and only if every key holds a
    mapping, and then the records carry the keys, in order, as names.  As
    soon as one key holds anything else (a scalar, a list, nothing),
    loading raises [AttributeError] and every command, also one that names
    another proxy, is ended by that exception without starting a child
    process. *)
Theorem malformed_entry_breaks_commands :
  forall (OS : Type) (m : machine OS) (os : OS)
         (items : list (string * yaml_node)),
    config m = Mapping items ->
    ((exists ps, load (config m) = Returned ps /\ map name ps = map fst items)
     <-> Forall (fun kv => exists d, snd kv = YMapping d) items)
    /\ (Exists (fun kv => snd kv = YOther) items ->
        forall a, a <> NoCommand ->
                  result_of (main m a os) = Raised AttributeError
                  /\ execs (log_of (main m a os)) = []
                  /\ os_of (main m a os) = os).
Proof.
  intros OS m os items Hcfg. rewrite Hcfg. simpl load. split.
  - split.
    + intros (ps & Hps & _). now apply build_proxies_returned in Hps.
    + intros Hall. destruct (build_proxies_total items [] Hall) as [ps Hps].
      exists ps. split; [exact Hps|].
      now apply build_proxies_returned in Hps.
  - intros Hex a Ha.
    assert (Hload : load (config m) = Raised AttributeError).
    { rewrite Hcfg. simpl. now apply build_proxies_other. }
    rewrite (main_load_failure OS m os a _ Hload Ha).
    unfold result_of, log_of, os_of. simpl.
    repeat split. destruct a; reflexivity.
Qed.

Lemma malformed_entry_breaks_commands_witness :
  result_of (main (Host.machine_of sample_with_null) (Info "proxy1") Host.idle)
  = Raised AttributeError.
Proof.
  destruct (malformed_entry_breaks_commands Host.os
              (Host.machine_of sample_with_null) Host.idle
              [ ("proxy1", YMapping {| data_host := Some "172.31.0.51";
                                       data_port := Some (PInt 9051);
                                       data_identity_file :=
                                         Some "~/.ssh/private_key" |});
                ("proxy3", YOther) ]) as (_ & Hbreak); [reflexivity|].
  assert (Hex : Exists (fun kv : string * yaml_node => snd kv = YOther)
                  [ ("proxy1", YMapping {| data_host := Some "172.31.0.51";
                                           data_port := Some (PInt 9051);
                                           data_identity_file :=
                                             Some "~/.ssh/private_key" |});
                    ("proxy3", YOther) ]).
  { apply Exists_cons_tl. apply Exists_cons_hd. reflexivity. }
  destruct (Hbreak Hex (Info "proxy1")) as (Hres & _); [discriminate|].
  exact Hres.
Defined.

(** ** Disconnect: one proxy *)

(** X7.  Disconnecting one configured proxy (a name other than ["all"]):
    when [pkill] exits with status zero the single line "Disconnected
    proxy: <name> (<host>:<port>)" is printed and the command returns;
    when [pkill] cannot be started the exception is not caught and nothing
    is printed.  Either way exactly one [pkill -f <kill pattern>] is
    started. *)
Theorem disconnect_single_outcomes :
  forall (OS : Type) (m : machine OS) (os : OS) (n : string) (p : proxy),
    n <> "all" ->
    result_of (_proxy_search m n os) = Returned (Some p) ->
    execs (log_of (proxy_disconnect m n os))
      = [ ["pkill"; "-f"; ssh_cmd_pattern (expanduser m) p] ]
    /\ (forall os',
          spawn m (pkill_cmd m p) os = (Exited 0, os') ->
          proxy_disconnect m n os
          = ([ Exec (pkill_cmd m p);
               Print ("Disconnected proxy: " ++ n ++ " (" ++ host p ++ ":"
                      ++ py_str (port p) ++ ")") ],
             os', Returned tt))
    /\ (forall os',
          spawn m (pkill_cmd m p) os = (NotStarted, os') ->
          proxy_disconnect m n os
          = ([Exec (pkill_cmd m p)], os', Raised SpawnError)).
Proof.
  intros OS m os n p Hn Hfound.
  apply proxy_search_found in Hfound as (proxies & Hload & Hfind).
  destruct (search_some _ _ _ Hfind) as [_ Hname].
  apply String.eqb_neq in Hn.
  assert (Hrun : proxy_disconnect m n os
                 = let '(l, os', r) := _disconnect_single_proxy m p os in
                   (l, os', match r with
                            | Returned _ => Returned tt
                            | Raised e => Raised e
                            end)).
  { unfold proxy_disconnect. rewrite Hn. unfold bind at 1.
    rewrite proxy_search_run, Hload, Hfind. unfold bind, ret.
    destruct (_disconnect_single_proxy m p os) as [[l os'] [b|e]];
      simpl; [now rewrite app_nil_r | reflexivity]. }
  rewrite Hrun, disconnect_single_run. split; [|split].
  - destruct (spawn m (pkill_cmd m p) os) as [[rc|] os'];
      [destruct (rc =? 0)%Z|]; reflexivity.
  - intros os' ->. simpl. unfold disconnected_message. now rewrite Hname.
  - intros os' ->. reflexivity.
Qed.

Lemma disconnect_single_outcomes_witness :
  execs (log_of (proxy_disconnect (Host.machine_of Host.sample) "proxy1"
                                  without_pkill))
  = [ ["pkill"; "-f";
       "ssh -D 9051 -N 172.31.0.51 -q -C -f -i /home/op/.ssh/private_key"] ]
  /\ result_of (proxy_disconnect (Host.machine_of Host.sample) "proxy1"
                                 without_pkill)
     = Raised SpawnError.
Proof.
  destruct (disconnect_single_outcomes Host.os (Host.machine_of Host.sample)
              without_pkill "proxy1" proxy1) as (Hexecs & _ & Hmissing);
    [discriminate | reflexivity |].
  split; [exact Hexecs|].
  rewrite (Hmissing without_pkill); reflexivity.
Defined.

(** ** A tool that cannot be started in the middle of a loop *)

Section Aborts.
Context {OS : Type} (m : machine OS).

Lemma disconnect_each_abort (pre : list proxy) :
  forall (any : bool) (os os1 os2 : OS) (cs : list completed)
         (p : proxy) (rest : list proxy),
    replay m (map (pkill_cmd m) pre) os = (cs, os1) ->
    forallb started cs = true ->
    spawn m (pkill_cmd m p) os1 = (NotStarted, os2) ->
    disconnect_each m (pre ++ p :: rest) any os
    = ((kill_log m pre cs ++ [Exec (pkill_cmd m p)])%list, os2,
       Raised SpawnError).
Proof.
  induction pre as [|q qs IH]; intros any os os1 os2 cs p rest Hrep Hst Hp;
    simpl in *.
  - injection Hrep as <- <-. unfold bind.
    rewrite disconnect_single_run, Hp. reflexivity.
  - unfold bind. rewrite disconnect_single_run.
    destruct (spawn m (pkill_cmd m q) os) as [c os3].
    destruct (replay m (map (pkill_cmd m) qs) os3) as [cs1 os4] eqn:Hrest.
    injection Hrep as <- <-. simpl in Hst.
    apply andb_true_iff in Hst as [Hc Hcs].
    destruct c as [rc|]; [|discriminate].
    simpl. destruct (rc =? 0)%Z;
      rewrite (IH _ os3 os4 os2 cs1 p rest Hrest Hcs Hp); reflexivity.
Qed.

Lemma status_scan_abort (pre : list proxy) :
  forall (connected : list string) (os os1 os2 : OS) (cs : list completed)
         (p : proxy) (rest : list proxy),
    replay m (map (search_cmd m) pre) os = (cs, os1) ->
    forallb started cs = true ->
    spawn m (search_cmd m p) os1 = (NotStarted, os2) ->
    status_scan m (pre ++ p :: rest) connected os
    = (map Exec (map (search_cmd m) (pre ++ [p])), os2, Raised SpawnError).
Proof.
  induction pre as [|q qs IH]; intros acc os os1 os2 cs p rest Hrep Hst Hp;
    simpl in *.
  - injection Hrep as <- <-. unfold bind.
    rewrite is_running_run, Hp. reflexivity.
  - unfold bind. rewrite is_running_run.
    destruct (spawn m (search_cmd m q) os) as [c os3].
    destruct (replay m (map (search_cmd m) qs) os3) as [cs1 os4] eqn:Hrest.
    injection Hrep as <- <-. simpl in Hst.
    apply andb_true_iff in Hst as [Hc Hcs].
    destruct c as [rc|]; [|discriminate].
    rewrite (IH _ os3 os4 os2 cs1 p rest Hrest Hcs Hp). reflexivity.
Qed.

(** X8.  [disconnect all] stops at the first [pkill] that cannot be
    started: the proxies before it have had their kill attempt, the ones
    after it get none, the exception leaves the command uncaught, and the
    "No active proxies" line is not printed. *)
Theorem disconnect_all_stops_at_unstartable :
  forall (os os1 os2 : OS) (pre rest : list proxy) (p : proxy)
         (cs : list completed),
    load (config m) = Returned (pre ++ p :: rest)%list ->
    replay m (map (pkill_cmd m) pre) os = (cs, os1) ->
    forallb started cs = true ->
    spawn m (pkill_cmd m p) os1 = (NotStarted, os2) ->
    result_of (proxy_disconnect m "all" os) = Raised SpawnError
    /\ os_of (proxy_disconnect m "all" os) = os2
    /\ execs (log_of (proxy_disconnect m "all" os))
       = map (pkill_cmd m) (pre ++ [p])
    /\ ~ In no_active_message (prints (log_of (proxy_disconnect m "all" os))).
Proof.
  intros os os1 os2 pre rest p cs Hload Hrep Hst Hp.
  assert (Hlen : List.length cs = List.length pre).
  { pose proof (replay_length m (map (pkill_cmd m) pre) os) as H.
    rewrite Hrep, length_map in H. exact H. }
  assert (Hrun : proxy_disconnect m "all" os
                 = ((Print "Disconnecting from all configured proxies."
                     :: kill_log m pre cs ++ [Exec (pkill_cmd m p)])%list,
                    os2, Raised SpawnError)).
  { unfold proxy_disconnect. rewrite String.eqb_refl.
    unfold bind at 1. rewrite parse_proxy_config_run, Hload.
    unfold bind at 1. unfold print at 1. unfold bind at 1.
    rewrite (disconnect_each_abort pre false os os1 os2 cs p rest Hrep Hst Hp).
    reflexivity. }
  rewrite Hrun. unfold result_of, os_of, log_of. simpl fst. simpl snd.
  split; [reflexivity|]. split; [reflexivity|]. split.
  - simpl. rewrite execs_app, (execs_kill_log m pre cs Hlen), map_app.
    reflexivity.
  - simpl. rewrite prints_app. simpl. rewrite app_nil_r.
    intros [Habs|Hin]; [discriminate Habs|].
    apply prints_kill_log in Hin as (q & Hq). discriminate Hq.
Qed.

(** X9.  [status], with or without the verbose flag, stops at the first
    [pgrep] that cannot be started: the checks up to and including that
    one are the only child processes, nothing at all is printed, and the
    exception leaves the command uncaught. *)
Theorem status_stops_at_unstartable :
  forall (verbose : bool) (os os1 os2 : OS) (pre rest : list proxy)
         (p : proxy) (cs : list completed),
    load (config m) = Returned (pre ++ p :: rest)%list ->
    replay m (map (search_cmd m) pre) os = (cs, os1) ->
    forallb started cs = true ->
    spawn m (search_cmd m p) os1 = (NotStarted, os2) ->
    result_of (proxy_status m verbose os) = Raised SpawnError
    /\ execs (log_of (proxy_status m verbose os))
       = map (search_cmd m) (pre ++ [p])
    /\ prints (log_of (proxy_status m verbose os)) = [].
Proof.
  intros verbose os os1 os2 pre rest p cs Hload Hrep Hst Hp.
  assert (Hrun : proxy_status m verbose os
                 = (map Exec (map (search_cmd m) (pre ++ [p])), os2,
                    Raised SpawnError)).
  { unfold proxy_status. unfold bind at 1.
    rewrite parse_proxy_config_run, Hload. unfold bind at 1.
    rewrite (status_scan_abort pre [] os os1 os2 cs p rest Hrep Hst Hp).
    reflexivity. }
  rewrite Hrun. unfold result_of, log_of. simpl fst. simpl snd.
  rewrite execs_map_Exec, prints_map_Exec. repeat split.
Qed.
End Aborts.

Lemma disconnect_all_stops_at_unstartable_witness :
  execs (log_of (proxy_disconnect (Host.machine_of Host.sample) "all"
                                  without_pkill))
  = [ ["pkill"; "-f";
       "ssh -D 9051 -N 172.31.0.51 -q -C -f -i /home/op/.ssh/private_key"] ].
Proof.
  destruct (disconnect_all_stops_at_unstartable
              (Host.machine_of Host.sample) without_pkill without_pkill
              without_pkill []
              [ {| name := "proxy2"; host := "172.31.0.52"; port := PInt 9052;
                   identity_file := "" |} ]
              proxy1 [])
    as (_ & _ & Hexecs & _);
    [reflexivity | reflexivity | reflexivity | reflexivity |].
  exact Hexecs.
Defined.

Lemma status_stops_at_unstartable_witness :
  result_of (proxy_status (Host.machine_of Host.sample) true without_pgrep)
  = Raised SpawnError.
Proof.
  destruct (status_stops_at_unstartable
              (Host.machine_of Host.sample) true without_pgrep without_pgrep
              without_pgrep []
              [ {| name := "proxy2"; host := "172.31.0.52"; port := PInt 9052;
                   identity_file := "" |} ]
              proxy1 [])
    as (Hres & _);
    [reflexivity | reflexivity | reflexivity | reflexivity |].
  exact Hres.
Defined.

(** ** Which programs a command can start *)

Section Children.
Context {OS : Type} (m : machine OS).

Lemma status_scan_execs (proxies : list proxy) :
  forall (connected : list string) (os : OS) (argv : list string),
    In argv (execs (log_of (status_scan m proxies connected os))) ->
    exists p, In p proxies /\ argv = search_cmd m p.
Proof.
  induction proxies as [|p ps IH]; intros acc os argv; simpl.
  - intros [].
  - unfold bind. rewrite is_running_run.
    destruct (spawn m (search_cmd m p) os) as [[rc|] os1].
    + destruct (status_scan m ps
                  (if (rc =? 0)%Z then (acc ++ [name p])%list else acc) os1)
        as [[l2 os2] r] eqn:E.
      unfold log_of. simpl. intros [<-|Hin]; [eauto|].
      destruct (IH (if (rc =? 0)%Z then (acc ++ [name p])%list else acc)
                   os1 argv) as (q & Hq & Hargv).
      * rewrite E. exact Hin.
      * eauto.
    + unfold log_of. simpl. intros [<-|[]]. eauto.
Qed.

Lemma disconnect_each_execs (proxies : list proxy) :
  forall (any : bool) (os : OS) (argv : list string),
    In argv (execs (log_of (disconnect_each m proxies any os))) ->
    exists p, In p proxies /\ argv = pkill_cmd m p.
Proof.
  induction proxies as [|p ps IH]; intros any os argv; simpl.
  - intros [].
  - unfold bind. rewrite disconnect_single_run.
    destruct (spawn m (pkill_cmd m p) os) as [[rc|] os1].
    + destruct (rc =? 0)%Z.
      * destruct (disconnect_each m ps true os1) as [[l2 os2] r] eqn:E.
        unfold log_of. simpl. intros [<-|Hin]; [eauto|].
        destruct (IH true os1 argv) as (q & Hq & Hargv);
          [rewrite E; exact Hin | eauto].
      * destruct (disconnect_each m ps any os1) as [[l2 os2] r] eqn:E.
        unfold log_of. simpl. intros [<-|Hin]; [eauto|].
        destruct (IH any os1 argv) as (q & Hq & Hargv);
          [rewrite E; exact Hin | eauto].
    + unfold log_of. simpl. intros [<-|[]]. eauto.
Qed.

Lemma proxy_status_execs (verbose : bool) (os : OS) (argv : list string) :
  In argv (execs (log_of (proxy_status m verbose os))) ->
  (exists proxies p,
      load (config m) = Returned proxies /\ In p proxies
      /\ argv = search_cmd m p)
  \/ (verbose = true /\ argv = shell_argv).
Proof.
  unfold proxy_status. unfold bind at 1. rewrite parse_proxy_config_run.
  destruct (load (config m)) as [proxies|e]; [|intros []].
  unfold bind at 1.
  pose proof (status_scan_execs proxies [] os argv) as Hscan.
  destruct (status_scan m proxies [] os) as [[l os1] [connected|e]].
  - assert (Htail :
      forall (tail : list event) (os2 : OS) (r : outcome unit),
        (forall a, In a (execs tail) -> verbose = true /\ a = shell_argv) ->
        In argv (execs (log_of (([] ++ l ++ tail)%list, os2, r))) ->
        (exists proxies0 p,
            Returned proxies = Returned proxies0 /\ In p proxies0
            /\ argv = search_cmd m p)
        \/ (verbose = true /\ argv = shell_argv)).
    { intros tail os2 r Htl Hin. unfold log_of in Hin. simpl in Hin.
      rewrite execs_app in Hin. apply in_app_or in Hin as [Hin|Hin].
      - left. destruct (Hscan Hin) as (p & Hp & Hargv). eauto.
      - right. auto. }
    destruct connected as [|n ns].
    + refine (Htail [Print "No proxies appear to be connected."] os1
                    (Returned tt) _).
      intros a [].
    + destruct verbose.
      * unfold_monad.
        destruct (spawn m ["/bin/sh"; "-c"; verbose_cmd] os1) as [[rc|] os2];
          refine (Htail [Print "Running verbose status command:";
                         Exec ["/bin/sh"; "-c"; verbose_cmd]] os2 _ _);
          intros a [<-|[]]; auto.
      * refine (Htail [Print "Currently connected proxies:"] os1
                      (Raised TypeError) _).
        intros a [].
  - unfold log_of in *. simpl in *.
    intros Hin. left. destruct (Hscan Hin) as (p & Hp & Hargv). eauto.
Qed.
End Children.

Section ChildrenOfCommands.
Context {OS : Type} (m : machine OS).

Lemma proxy_disconnect_execs (n : string) (os : OS) (argv : list string) :
  In argv (execs (log_of (proxy_disconnect m n os))) ->
  exists proxies p,
    load (config m) = Returned proxies /\ In p proxies
    /\ (n = "all" \/ name p = n) /\ argv = pkill_cmd m p.
Proof.
  unfold proxy_disconnect.
  destruct (String.eqb_spec n "all") as [Hall|Hone].
  - unfold bind at 1. rewrite parse_proxy_config_run.
    destruct (load (config m)) as [proxies|e]; [|intros []].
    unfold bind at 1. unfold print at 1. unfold bind at 1.
    pose proof (disconnect_each_execs m proxies false os argv) as Hloop.
    destruct (disconnect_each m proxies false os) as [[l os1] [any|e]].
    + destruct any; unfold_monad; simpl; rewrite ?execs_app; simpl;
        rewrite ?app_nil_r; intros Hin;
        destruct (Hloop Hin) as (p & Hp & Hargv);
        exists proxies, p; auto.
    + unfold log_of in *. simpl in *. intros Hin.
      destruct (Hloop Hin) as (p & Hp & Hargv). exists proxies, p; auto.
  - unfold bind at 1. rewrite proxy_search_run.
    destruct (load (config m)) as [proxies|e]; [|intros []].
    destruct (search proxies n) as [p|] eqn:Hfind; [|intros []].
    destruct (search_some _ _ _ Hfind) as [Hin Hname].
    unfold bind. rewrite disconnect_single_run.
    destruct (spawn m (pkill_cmd m p) os) as [[rc|] os1];
      [destruct (rc =? 0)%Z|]; unfold log_of; simpl;
      intros [<-|[]]; exists proxies, p; auto.
Qed.

Lemma proxy_connect_execs_in (n : string) (os : OS) (argv : list string) :
  In argv (execs (log_of (proxy_connect m n os))) ->
  exists proxies p,
    load (config m) = Returned proxies /\ In p proxies
    /\ name p = n /\ argv = connect_cmd (expanduser m) p.
Proof.
  destruct (load (config m)) as [proxies|e] eqn:Hload.
  - destruct (search proxies n) as [p|] eqn:Hfind.
    + assert (Hfound : result_of (_proxy_search m n os) = Returned (Some p)).
      { rewrite proxy_search_run, Hload, Hfind. reflexivity. }
      rewrite (proxy_connect_execs m n os p Hfound).
      destruct (search_some _ _ _ Hfind) as [Hin Hname].
      destruct (incomplete _ _ _); [intros []|].
      intros [<-|[]]. exists proxies, p. auto.
    + unfold proxy_connect. unfold bind at 1.
      rewrite proxy_search_run, Hload, Hfind. intros [].
  - unfold proxy_connect. unfold bind at 1.
    rewrite proxy_search_run, Hload. intros [].
Qed.

Lemma proxy_list_execs (os : OS) :
  execs (log_of (proxy_list m os)) = [].
Proof.
  unfold proxy_list. unfold bind at 1. unfold print at 1. unfold bind at 1.
  rewrite parse_proxy_config_run.
  destruct (load (config m)) as [proxies|e]; [|reflexivity].
  rewrite for_each_print. unfold log_of. simpl. apply execs_map_Print.
Qed.

Lemma proxy_info_execs (n : string) (os : OS) :
  execs (log_of (proxy_info m n os)) = [].
Proof.
  unfold proxy_info. unfold bind at 1. rewrite proxy_search_run.
  destruct (load (config m)) as [proxies|e]; [|reflexivity].
  destruct (search proxies n); reflexivity.
Qed.

(** X10.  Every child process of a command is one of its own tools, for
    a configured proxy: [status] starts only [pgrep -af <status pattern>]
    (and the shell pipeline only with the verbose flag), [connect] only
    the [ssh] vector of the proxy it was named, [disconnect] only
    [pkill -f <kill pattern>]; [list], [info] and the help path start
    nothing.  So no command but [connect] can start [ssh], and none but
    [disconnect] can kill. *)
Theorem children_of_commands :
  forall (os : OS) (a : args) (argv : list string),
    In argv (execs (log_of (main m a os))) ->
    match a with
    | Status verbose =>
        (exists proxies p,
            load (config m) = Returned proxies /\ In p proxies
            /\ argv = ["pgrep"; "-af"; status_pattern (expanduser m) p])
        \/ (verbose = true /\ argv = ["/bin/sh"; "-c"; verbose_cmd])
    | Connect n =>
        exists proxies p,
          load (config m) = Returned proxies /\ In p proxies
          /\ name p = n /\ argv = connect_cmd (expanduser m) p
    | Disconnect n =>
        exists proxies p,
          load (config m) = Returned proxies /\ In p proxies
          /\ (n = "all" \/ name p = n)
          /\ argv = ["pkill"; "-f"; ssh_cmd_pattern (expanduser m) p]
    | List | Info _ | NoCommand => False
    end
    /\ (program argv = "ssh" -> exists n, a = Connect n)
    /\ (program argv = "pkill" -> exists n, a = Disconnect n).
Proof.
  intros os a argv Hin.
  destruct a as [verbose| |n|n|n|]; simpl in Hin.
  - apply proxy_status_execs in Hin.
    split; [exact Hin|].
    destruct Hin as [(proxies & p & _ & _ & ->)|[_ ->]];
      split; discriminate.
  - rewrite proxy_list_execs in Hin. destruct Hin.
  - rewrite proxy_info_execs in Hin. destruct Hin.
  - apply proxy_connect_execs_in in Hin.
    split; [exact Hin|]. split; [eauto|].
    destruct Hin as (proxies & p & _ & _ & _ & ->). discriminate.
  - apply proxy_disconnect_execs in Hin.
    split; [exact Hin|]. split; [|eauto].
    destruct Hin as (proxies & p & _ & _ & _ & ->). discriminate.
  - unfold log_of in Hin. simpl in Hin. destruct Hin.
Qed.
End ChildrenOfCommands.

Lemma children_of_commands_witness :
  exists n, Connect "proxy1" = Connect n.
Proof.
  destruct (children_of_commands (Host.machine_of Host.sample) Host.idle
              (Connect "proxy1")
              ["ssh"; "-D"; "9051"; "-i"; "/home/op/.ssh/private_key";
               "-q"; "-C"; "-f"; "-N"; "172.31.0.51"])
    as (_ & Hssh & _).
  - simpl. left. reflexivity.
  - apply Hssh. reflexivity.
Defined.

(** ** Status with no tunnel up, and the empty configuration *)

(** X11.  When every [pgrep] runs and none exits with status zero,
    [status] (with or without the verbose flag) has started exactly one
    [pgrep] per configured proxy, in configuration order, prints the
    single line "No proxies appear to be connected." and returns
    normally. *)
Theorem status_nothing_connected :
  forall (OS : Type) (m : machine OS) (verbose : bool) (os os' : OS)
         (proxies : list proxy) (cs : list completed),
    load (config m) = Returned proxies ->
    replay m (map (search_cmd m) proxies) os = (cs, os') ->
    forallb started cs = true ->
    (forall c, In c cs -> succeeded c = false) ->
    result_of (proxy_status m verbose os) = Returned tt
    /\ os_of (proxy_status m verbose os) = os'
    /\ execs (log_of (proxy_status m verbose os))
       = map (fun p => ["pgrep"; "-af"; status_pattern (expanduser m) p])
             proxies
    /\ prints (log_of (proxy_status m verbose os))
       = ["No proxies appear to be connected."].
Proof.
  intros OS m verbose os os' proxies cs Hload Hrep Hst Hnone.
  assert (Hlen : List.length cs = List.length proxies).
  { pose proof (replay_length m (map (search_cmd m) proxies) os) as H.
    rewrite Hrep, length_map in H. exact H. }
  rewrite (proxy_status_run m verbose os os' proxies cs Hload Hrep Hst).
  cbv zeta. apply existsb_false in Hnone.
  apply (found_names_nil proxies cs Hlen) in Hnone. rewrite Hnone.
  unfold result_of, os_of, log_of. simpl fst. simpl snd.
  rewrite execs_app, prints_app, execs_map_Exec, prints_map_Exec.
  simpl. rewrite app_nil_r. repeat split.
Qed.

Lemma status_nothing_connected_witness :
  prints (log_of (proxy_status (Host.machine_of Host.sample) false Host.idle))
  = ["No proxies appear to be connected."].
Proof.
  destruct (status_nothing_connected Host.os (Host.machine_of Host.sample)
              false Host.idle Host.idle
              [ proxy1;
                {| name := "proxy2"; host := "172.31.0.52"; port := PInt 9052;
                   identity_file := "" |} ]
              [Exited 1; Exited 1]) as (_ & _ & _ & Hprints);
    [reflexivity | reflexivity | reflexivity | |exact Hprints].
  intros c [<-|[<-|[]]]; reflexivity.
Defined.

(** X12.  A configuration file that holds the empty mapping: no command
    starts a child process or raises.  [list] prints its heading alone,
    [status] prints "No proxies appear to be connected.", [disconnect all]
    prints its heading and "No active proxies were found to disconnect.",
    and every other name is reported as not found. *)
Theorem empty_configuration :
  forall (OS : Type) (m : machine OS) (os : OS),
    config m = Mapping [] ->
    proxy_list m os = ([Print "Listing configured Proxies:"], os, Returned tt)
    /\ (forall verbose,
          proxy_status m verbose os
          = ([Print "No proxies appear to be connected."], os, Returned tt))
    /\ proxy_disconnect m "all" os
       = ([ Print "Disconnecting from all configured proxies.";
            Print "No active proxies were found to disconnect." ],
          os, Returned tt)
    /\ (forall a, execs (log_of (main m a os)) = []
                  /\ os_of (main m a os) = os
                  /\ result_of (main m a os) = Returned tt).
Proof.
  intros OS m os Hcfg.
  assert (Hload : load (config m) = Returned []) by now rewrite Hcfg.
  assert (Hlist : proxy_list m os
                  = ([Print "Listing configured Proxies:"], os, Returned tt)).
  { unfold proxy_list. unfold bind at 1. unfold print at 1. unfold bind at 1.
    rewrite parse_proxy_config_run, Hload. reflexivity. }
  assert (Hstatus : forall verbose,
             proxy_status m verbose os
             = ([Print "No proxies appear to be connected."], os, Returned tt)).
  { intros verbose. unfold proxy_status. unfold bind at 1.
    rewrite parse_proxy_config_run, Hload. reflexivity. }
  assert (Hall : proxy_disconnect m "all" os
                 = ([ Print "Disconnecting from all configured proxies.";
                      Print "No active proxies were found to disconnect." ],
                    os, Returned tt)).
  { unfold proxy_disconnect. rewrite String.eqb_refl. unfold bind at 1.
    rewrite parse_proxy_config_run, Hload. reflexivity. }
  repeat (split; [assumption|]).
  intros a. destruct a as [verbose| |n|n|n|]; simpl.
  - rewrite Hstatus. repeat split.
  - rewrite Hlist. repeat split.
  - unfold proxy_info, bind.
    rewrite proxy_search_run, Hload. repeat split.
  - unfold proxy_connect, bind.
    rewrite proxy_search_run, Hload. repeat split.
  - destruct (String.eqb_spec n "all") as [->|Hn].
    + rewrite Hall. repeat split.
    + apply String.eqb_neq in Hn. unfold proxy_disconnect. rewrite Hn.
      unfold bind. rewrite proxy_search_run, Hload. repeat split.
  - repeat split.
Qed.

Lemma empty_configuration_witness :
  proxy_disconnect (Host.machine_of (Mapping [])) "all" Host.idle
  = ([ Print "Disconnecting from all configured proxies.";
       Print "No active proxies were found to disconnect." ],
     Host.idle, Returned tt).
Proof.
  destruct (empty_configuration Host.os (Host.machine_of (Mapping []))
              Host.idle) as (_ & _ & Hall & _); [reflexivity|].
  exact Hall.
Defined.

(** ** Loops over the proxies: every run *)

(** A loop that starts one child per proxy either gets an exit status
    from every one of them, or meets a first child that cannot be
    started. *)
Lemma replay_cases {OS : Type} (m : machine OS)
                   (cmd : proxy -> list string) (proxies : list proxy) :
  forall os : OS,
    (exists cs os',
        replay m (map cmd proxies) os = (cs, os')
        /\ forallb started cs = true)
    \/ (exists pre p rest cs os1 os2,
          proxies = (pre ++ p :: rest)%list
          /\ replay m (map cmd pre) os = (cs, os1)
          /\ forallb started cs = true
          /\ spawn m (cmd p) os1 = (NotStarted, os2)).
Proof.
  induction proxies as [|q qs IH]; intros os.
  - left. exists [], os. split; reflexivity.
  - destruct (spawn m (cmd q) os) as [[rc|] os1] eqn:Hq.
    + destruct (IH os1) as [(cs & os' & Hrep & Hst)
                           |(pre & p & rest & cs & os2 & os3
                             & Hsplit & Hrep & Hst & Hp)].
      * left. exists (Exited rc :: cs), os'.
        simpl. rewrite Hq, Hrep. split; [reflexivity | exact Hst].
      * right. exists (q :: pre), p, rest, (Exited rc :: cs), os2, os3.
        simpl. rewrite Hq, Hrep, Hsplit. repeat split; assumption.
    + right. exists [], q, qs, [], os, os1. repeat split. exact Hq.
Qed.

Section EveryRun.
Context {OS : Type} (m : machine OS).

Lemma proxy_disconnect_all_abort_run
      (os os1 os2 : OS) (pre rest : list proxy) (p : proxy)
      (cs : list completed) :
  load (config m) = Returned (pre ++ p :: rest)%list ->
  replay m (map (pkill_cmd m) pre) os = (cs, os1) ->
  forallb started cs = true ->
  spawn m (pkill_cmd m p) os1 = (NotStarted, os2) ->
  proxy_disconnect m "all" os
  = ((Print "Disconnecting from all configured proxies."
      :: kill_log m pre cs ++ [Exec (pkill_cmd m p)])%list,
     os2, Raised SpawnError).
Proof.
  intros Hload Hrep Hst Hp.
  unfold proxy_disconnect. rewrite String.eqb_refl.
  unfold bind at 1. rewrite parse_proxy_config_run, Hload.
  unfold bind at 1. unfold print at 1. unfold bind at 1.
  rewrite (disconnect_each_abort m pre false os os1 os2 cs p rest Hrep Hst Hp).
  reflexivity.
Qed.

Lemma proxy_status_abort_run
      (verbose : bool) (os os1 os2 : OS) (pre rest : list proxy) (p : proxy)
      (cs : list completed) :
  load (config m) = Returned (pre ++ p :: rest)%list ->
  replay m (map (search_cmd m) pre) os = (cs, os1) ->
  forallb started cs = true ->
  spawn m (search_cmd m p) os1 = (NotStarted, os2) ->
  proxy_status m verbose os
  = (map Exec (map (search_cmd m) (pre ++ [p])), os2, Raised SpawnError).
Proof.
  intros Hload Hrep Hst Hp.
  unfold proxy_status. unfold bind at 1.
  rewrite parse_proxy_config_run, Hload. unfold bind at 1.
  rewrite (status_scan_abort m pre [] os os1 os2 cs p rest Hrep Hst Hp).
  reflexivity.
Qed.

(** C8, amended.  [disconnect all], once the configuration has loaded,
    runs in one of two ways, and always in one of them.  Either every
    [pkill] can be started: then there is exactly one [pkill] per
    configured proxy, in configuration order, each on the process table
    left by the one before, the command returns normally, and the line
    "No active proxies were found to disconnect." is printed if and only
    if every attempt failed (none exited with status zero).  Or some
    [pkill] cannot be started: then the command stops at the first such
    attempt with the exception uncaught, the proxies after it get no
    attempt, and the line is not printed. *)
Theorem disconnect_all_cases :
  forall (os : OS) (proxies : list proxy),
    load (config m) = Returned proxies ->
    (forall cs os',
        replay m (map (pkill_cmd m) proxies) os = (cs, os') ->
        forallb started cs = true ->
        result_of (proxy_disconnect m "all" os) = Returned tt
        /\ os_of (proxy_disconnect m "all" os) = os'
        /\ execs (log_of (proxy_disconnect m "all" os))
           = map (pkill_cmd m) proxies
        /\ List.length (execs (log_of (proxy_disconnect m "all" os)))
           = List.length proxies
        /\ (In no_active_message
               (prints (log_of (proxy_disconnect m "all" os)))
            <-> (forall c, In c cs -> succeeded c = false)))
    /\ (forall pre p rest cs os1 os2,
          proxies = (pre ++ p :: rest)%list ->
          replay m (map (pkill_cmd m) pre) os = (cs, os1) ->
          forallb started cs = true ->
          spawn m (pkill_cmd m p) os1 = (NotStarted, os2) ->
          result_of (proxy_disconnect m "all" os) = Raised SpawnError
          /\ os_of (proxy_disconnect m "all" os) = os2
          /\ execs (log_of (proxy_disconnect m "all" os))
             = map (pkill_cmd m) (pre ++ [p])
          /\ ~ In no_active_message
                  (prints (log_of (proxy_disconnect m "all" os))))
    /\ ((exists cs os',
            replay m (map (pkill_cmd m) proxies) os = (cs, os')
            /\ forallb started cs = true)
        \/ (exists pre p rest cs os1 os2,
              proxies = (pre ++ p :: rest)%list
              /\ replay m (map (pkill_cmd m) pre) os = (cs, os1)
              /\ forallb started cs = true
              /\ spawn m (pkill_cmd m p) os1 = (NotStarted, os2))).
Proof.
  intros os proxies Hload. split; [|split].
  - intros cs os' Hrep Hst.
    exact (disconnect_all_attempts m os os' proxies cs Hload Hrep Hst).
  - intros pre p rest cs os1 os2 Hsplit Hrep Hst Hp. subst proxies.
    assert (Hlen : List.length cs = List.length pre).
    { pose proof (replay_length m (map (pkill_cmd m) pre) os) as H.
      rewrite Hrep, length_map in H. exact H. }
    rewrite (proxy_disconnect_all_abort_run os os1 os2 pre rest p cs
               Hload Hrep Hst Hp).
    unfold result_of, os_of, log_of. simpl fst. simpl snd.
    split; [reflexivity|]. split; [reflexivity|]. split.
    + simpl. rewrite execs_app, (execs_kill_log m pre cs Hlen), map_app.
      reflexivity.
    + simpl. rewrite prints_app. simpl. rewrite app_nil_r.
      intros [Habs|Hin]; [discriminate Habs|].
      apply prints_kill_log in Hin as (q & Hq). discriminate Hq.
  - apply replay_cases.
Qed.

(** C4, amended.  With the verbose flag, once the configuration has
    loaded, [proxy_status] still runs the per-proxy [pgrep], in
    configuration order, and it runs in one of two ways, always in one of
    them.  Either every [pgrep] can be started: then there is one [pgrep]
    per configured proxy, and the diagnostic pipeline is started, after
    the line "Running verbose status command:", exactly when at least one
    of them exited with status zero; when none did, the only line is "No
    proxies appear to be connected." and no diagnostic runs.  Or some
    [pgrep] cannot be started: then the command stops at the first such
    check with the exception uncaught, prints nothing and runs no
    diagnostic. *)
Theorem verbose_status_cases :
  forall (os : OS) (proxies : list proxy),
    load (config m) = Returned proxies ->
    (forall cs os',
        replay m (map (search_cmd m) proxies) os = (cs, os') ->
        forallb started cs = true ->
        execs (log_of (proxy_status m true os))
          = (map (search_cmd m) proxies
             ++ (if existsb succeeded cs then [shell_argv] else []))%list
        /\ prints (log_of (proxy_status m true os))
           = (if existsb succeeded cs
              then ["Running verbose status command:"]
              else ["No proxies appear to be connected."])
        /\ (In shell_argv (execs (log_of (proxy_status m true os)))
            <-> exists c, In c cs /\ succeeded c = true))
    /\ (forall pre p rest cs os1 os2,
          proxies = (pre ++ p :: rest)%list ->
          replay m (map (search_cmd m) pre) os = (cs, os1) ->
          forallb started cs = true ->
          spawn m (search_cmd m p) os1 = (NotStarted, os2) ->
          result_of (proxy_status m true os) = Raised SpawnError
          /\ execs (log_of (proxy_status m true os))
             = map (search_cmd m) (pre ++ [p])
          /\ prints (log_of (proxy_status m true os)) = []
          /\ ~ In shell_argv (execs (log_of (proxy_status m true os))))
    /\ ((exists cs os',
            replay m (map (search_cmd m) proxies) os = (cs, os')
            /\ forallb started cs = true)
        \/ (exists pre p rest cs os1 os2,
              proxies = (pre ++ p :: rest)%list
              /\ replay m (map (search_cmd m) pre) os = (cs, os1)
              /\ forallb started cs = true
              /\ spawn m (search_cmd m p) os1 = (NotStarted, os2))).
Proof.
  intros os proxies Hload. split; [|split].
  - intros cs os' Hrep Hst.
    exact (verbose_status_gated OS m os os' proxies cs Hload Hrep Hst).
  - intros pre p rest cs os1 os2 Hsplit Hrep Hst Hp. subst proxies.
    rewrite (proxy_status_abort_run true os os1 os2 pre rest p cs
               Hload Hrep Hst Hp).
    unfold result_of, log_of. simpl fst. simpl snd.
    rewrite execs_map_Exec, prints_map_Exec.
    repeat split.
    intros Hin. apply in_map_iff in Hin as (q & Hq & _). discriminate Hq.
  - apply replay_cases.
Qed.
End EveryRun.

(** C8, as stated, fails on a host where [pkill] cannot be started: for
    the two configured proxies there is a single kill attempt, the
    command ends with an exception, and the "No active proxies" line is
    not printed although no proxy was torn down. *)
Lemma disconnect_all_counterexample :
  proxy_disconnect (Host.machine_of Host.sample) "all" without_pkill
  = ([ Print "Disconnecting from all configured proxies.";
       Exec ["pkill"; "-f";
             "ssh -D 9051 -N 172.31.0.51 -q -C -f -i /home/op/.ssh/private_key"] ],
     without_pkill, Raised SpawnError)
  /\ List.length
       (execs (log_of (proxy_disconnect (Host.machine_of Host.sample) "all"
                                        without_pkill))) <> 2
  /\ ~ In no_active_message
          (prints (log_of (proxy_disconnect (Host.machine_of Host.sample)
                                            "all" without_pkill))).
Proof.
  split; [reflexivity|]. split.
  - discriminate.
  - intros [H|[]]. discriminate H.
Qed.

Lemma disconnect_all_cases_witness :
  execs (log_of (proxy_disconnect (Host.machine_of Host.sample) "all"
                                  Host.idle))
  = [ ["pkill"; "-f";
       "ssh -D 9051 -N 172.31.0.51 -q -C -f -i /home/op/.ssh/private_key"];
      ["pkill"; "-f"; "ssh -D 9052 -N 172.31.0.52 -q -C -f -i "] ]
  /\ result_of (proxy_disconnect (Host.machine_of Host.sample) "all"
                                 without_pkill)
     = Raised SpawnError.
Proof.
  split.
  - destruct (disconnect_all_cases (Host.machine_of Host.sample) Host.idle
                [ proxy1;
                  {| name := "proxy2"; host := "172.31.0.52";
                     port := PInt 9052; identity_file := "" |} ])
      as (Hall & _); [reflexivity|].
    destruct (Hall [Exited 1; Exited 1] Host.idle) as (_ & _ & Hexecs & _);
      [reflexivity | reflexivity | exact Hexecs].
  - destruct (disconnect_all_cases (Host.machine_of Host.sample)
                without_pkill
                [ proxy1;
                  {| name := "proxy2"; host := "172.31.0.52";
                     port := PInt 9052; identity_file := "" |} ])
      as (_ & Hstop & _); [reflexivity|].
    destruct (Hstop [] proxy1
                [ {| name := "proxy2"; host := "172.31.0.52";
                     port := PInt 9052; identity_file := "" |} ]
                [] without_pkill without_pkill) as (Hres & _);
      [reflexivity | reflexivity | reflexivity | reflexivity | exact Hres].
Defined.

Lemma verbose_status_cases_witness :
  execs (log_of (proxy_status (Host.machine_of Host.sample) true tunnel_up))
  = [ ["pgrep"; "-af";
       "ssh -D 9051 -i /home/op/.ssh/private_key -q -C -f -N 172.31.0.51"];
      ["pgrep"; "-af"; "ssh -D 9052 -i  -q -C -f -N 172.31.0.52"];
      shell_argv ]
  /\ result_of (proxy_status (Host.machine_of Host.sample) true without_pgrep)
     = Raised SpawnError.
Proof.
  split.
  - destruct (verbose_status_cases (Host.machine_of Host.sample) tunnel_up
                [ proxy1;
                  {| name := "proxy2"; host := "172.31.0.52";
                     port := PInt 9052; identity_file := "" |} ])
      as (Hall & _); [reflexivity|].
    destruct (Hall [Exited 0; Exited 1] tunnel_up) as (Hexecs & _);
      [reflexivity | reflexivity | exact Hexecs].
  - destruct (verbose_status_cases (Host.machine_of Host.sample)
                without_pgrep
                [ proxy1;
                  {| name := "proxy2"; host := "172.31.0.52";
                     port := PInt 9052; identity_file := "" |} ])
      as (_ & Hstop & _); [reflexivity|].
    destruct (Hstop [] proxy1
                [ {| name := "proxy2"; host := "172.31.0.52";
                     port := PInt 9052; identity_file := "" |} ]
                [] without_pgrep without_pgrep) as (Hres & _);
      [reflexivity | reflexivity | reflexivity | reflexivity | exact Hres].
Defined.
